(** * phi.workflow.workflow: the run-lifecycle manager of a Workflow

    A shallow embedding of [src/phi/workflow/workflow.py].  Python values
    are a small tagged union, dictionaries are insertion-ordered association
    lists, the methods of [Workflow] are computations in a state-and-error
    monad whose state holds the instance ([self]), a chronological log of
    the observable effects (storage calls, the call of the run function,
    yields, additions to the memory, warnings) and the number of identifiers
    drawn from [uuid4].

    What the model takes from outside the module:
    - the storage backend is an interface ([WorkflowStorage.t]); its calls
      return, they do not raise;
    - the run function of the subclass is a parameter; it reads the
      instance, and a streaming run produces a finite sequence of fragments
      that are objects of their own (not the outer response);
    - [WorkflowMemory.to_dict] and the validation behind [WorkflowRun] are
      parameters; constructing a [WorkflowSession] or a [RunResponse]
      succeeds;
    - [merge_dictionaries] and [WorkflowMemory.add_run] are modelled from
      the specification, as said where they are defined;
    - debug logging is left out.

    Objects that the code updates in place are passed through the state:
    the session object handed to [from_workflow_session] comes back as it is
    after the call and is what [read_from_storage] caches; a dictionary
    shared between that session and the instance has the same content on
    both sides from then on. *)

From stdpp Require Import base option list strings gmap pretty.
From Stdlib Require Import ZArith.

(** ** Python values *)

#[warnings="-register-all"]
Inductive value :=
| VNone
| VBool (b : bool)
| VInt (z : Z)
| VStr (s : string)
| VList (l : list value)
| VTuple (l : list value)
| VDict (d : list (string * value)).

(** A [dict] with string keys, in insertion order. *)
Abbreviation dict := (list (string * value)).

Definition is_none (v : value) : bool :=
  match v with VNone => true | _ => false end.

Definition is_dict (v : value) : bool :=
  match v with VDict _ => true | _ => false end.

(** [bool(v)]: the truth value Python's [or] and [if] look at. *)
Definition truthy (v : value) : bool :=
  match v with
  | VNone => false
  | VBool b => b
  | VInt z => negb (Z.eqb z 0)
  | VStr s => negb (String.eqb s "")
  | VList l | VTuple l => negb (bool_decide (l = []))
  | VDict d => negb (bool_decide (d = []))
  end.

(** [d.get(k)] as an option; [None] when the key is absent. *)
Fixpoint dict_get (d : dict) (k : string) : option value :=
  match d with
  | [] => None
  | (k', v) :: d' => if decide (k' = k) then Some v else dict_get d' k
  end.

(** [k in d] *)
Definition dict_mem (d : dict) (k : string) : bool :=
  match dict_get d k with Some _ => true | None => false end.

(** [d[k] = v]: an existing key keeps its position, a new one goes last. *)
Fixpoint dict_set (d : dict) (k : string) (v : value) : dict :=
  match d with
  | [] => [(k, v)]
  | (k', v') :: d' =>
      if decide (k' = k) then (k', v) :: d' else (k', v') :: dict_set d' k v
  end.

Definition keys (d : dict) : list string := d.*1.

(** Follow a path of keys through nested dictionaries. *)
Fixpoint value_at (v : value) (ks : list string) : option value :=
  match ks with
  | [] => Some v
  | k :: ks' =>
      match v with
      | VDict d =>
          match dict_get d k with
          | Some v' => value_at v' ks'
          | None => None
          end
      | _ => None
      end
  end.

(** Keys of a Python dict are unique, at every nesting level. *)
Fixpoint unique_keys (v : value) : bool :=
  match v with
  | VDict d =>
      bool_decide (NoDup (keys d))
      && (fix all (d : dict) : bool :=
            match d with
            | [] => true
            | (_, x) :: d' => unique_keys x && all d'
            end) d
  | VList l | VTuple l =>
      (fix all (l : list value) : bool :=
         match l with
         | [] => true
         | x :: l' => unique_keys x && all l'
         end) l
  | _ => true
  end.

(** ** phi.utils.merge_dict *)

(** Modelled from the spec: [merge_dictionaries] of [phi.utils.merge_dict],
    which is imported by the workflow module but is not part of the sources
    at hand.  Section 4.2: "mutates persisted in place by inserting every key
    present in local but absent in persisted, and, for keys present in both
    where the value is itself a map, recursing; for keys present in both with
    non-map values, the local value wins (overwrite)".  The first argument is
    the dictionary updated in place, the result is its content afterwards.
    [merge_value old new] is the value stored under a key that held [old]:
    the recursive merge when both are maps, the local value otherwise. *)
Fixpoint merge_value (old new : value) {struct new} : value :=
  match old, new with
  | VDict a0, VDict b0 =>
      VDict ((fix go (a b : dict) {struct b} : dict :=
                match b with
                | [] => a
                | (k, v) :: b' =>
                    go (dict_set a k
                          match dict_get a k with
                          | Some old' => merge_value old' v
                          | None => v
                          end) b'
                end) a0 b0)
  | _, _ => new
  end.

Definition merge_dictionaries (a b : dict) : dict :=
  match merge_value (VDict a) (VDict b) with
  | VDict d => d
  | _ => a
  end.

(** ** Collaborating classes *)

(** [phi.run.response.RunResponse]: the fields the workflow touches. *)
Module RunResponse.
Record t := mk {
  content : value;
  run_id : option string;
  session_id : option string;
  workflow_id : option string;
}.

Definition set_content (c : value) (r : t) : t :=
  mk c (run_id r) (session_id r) (workflow_id r).
End RunResponse.

(** [phi.memory.workflow.WorkflowRun] *)
Module WorkflowRun.
Record t := mk {
  input : option value;
  response : option RunResponse.t;
}.
End WorkflowRun.

(** [phi.memory.workflow.WorkflowMemory] *)
Module WorkflowMemory.
Record t := mk { runs : list WorkflowRun.t }.

(** Modelled from the spec: [WorkflowMemory.add_run], which is not part
    of the sources at hand; section 4.4 has it "append a RunRecord to
    history", section 3 has the history in append order. *)
Definition add_run (r : WorkflowRun.t) (m : t) : t := mk (runs m ++ [r]).
End WorkflowMemory.

(** [phi.workflow.session.WorkflowSession]: the persisted record. *)
Module WorkflowSession.
Record t := mk {
  session_id : option string;
  workflow_id : option string;
  user_id : option string;
  memory : option dict;
  workflow_data : option dict;
  user_data : option dict;
  session_data : option dict;
  session_state : option dict;
}.

Definition set_workflow_data (d : option dict) (s : t) : t :=
  mk (session_id s) (workflow_id s) (user_id s) (memory s) d
     (user_data s) (session_data s) (session_state s).
Definition set_user_data (d : option dict) (s : t) : t :=
  mk (session_id s) (workflow_id s) (user_id s) (memory s) (workflow_data s)
     d (session_data s) (session_state s).
Definition set_session_data (d : option dict) (s : t) : t :=
  mk (session_id s) (workflow_id s) (user_id s) (memory s) (workflow_data s)
     (user_data s) d (session_state s).
Definition set_session_state (d : option dict) (s : t) : t :=
  mk (session_id s) (workflow_id s) (user_id s) (memory s) (workflow_data s)
     (user_data s) (session_data s) d.
End WorkflowSession.

(** [phi.storage.workflow.WorkflowStorage]: the abstract storage backend.
    [S] is the state of the backend; every call may change it.  [upsert]
    answers [None] when the backend fails to produce a record. *)
Module WorkflowStorage.
Class t (S : Type) := mk {
  read : S -> string -> S * option WorkflowSession.t;
  upsert : S -> WorkflowSession.t -> S * option WorkflowSession.t;
  delete_session : S -> string -> S;
}.
End WorkflowStorage.

(** An in-memory backend keyed by session id; it echoes what it stores. *)
#[export] Instance dict_storage : WorkflowStorage.t (gmap string WorkflowSession.t) :=
  WorkflowStorage.mk _
    (fun db sid => (db, db !! sid))
    (fun db s =>
       match WorkflowSession.session_id s with
       | Some sid => (<[sid := s]> db, Some s)
       | None => (db, None)
       end)
    (fun db sid => delete sid db).

(** What a run function hands back, and what it yields. *)
Inductive item :=
| ItemResponse (r : RunResponse.t)
| ItemOther (v : value).

Inductive run_result :=
| ResultIterator (items : list item)
| ResultResponse (r : RunResponse.t)
| ResultOther (v : value).

(** Python exceptions *)
Inductive exn :=
| Exception (msg : string)
| AttributeError (msg : string)
| TypeError (msg : string).

(** ** Observable effects *)

Inductive event :=
| StorageRead (session_id : string)
| StorageUpsert (session : WorkflowSession.t)
| StorageDelete (session_id : string)
| SubclassRun (args : list value) (kwargs : dict)
| Yield (it : item)
| MemoryAddRun (r : WorkflowRun.t)
| LoggerWarning (msg : string).

Definition is_upsert (e : event) : bool :=
  match e with StorageUpsert _ => true | _ => false end.

Definition is_add_run (e : event) : bool :=
  match e with MemoryAddRun _ => true | _ => false end.

Definition is_yield (e : event) : bool :=
  match e with Yield _ => true | _ => false end.

(** ** A state and exception monad *)

Definition M (St A : Type) : Type := St -> (exn + A) * St.

Definition ret {St A} (a : A) : M St A := fun st => (inr a, st).

Definition raise {St A} (e : exn) : M St A := fun st => (inl e, st).

Definition bind {St A B} (c : M St A) (k : A -> M St B) : M St B :=
  fun st =>
    match c st with
    | (inr a, st') => k a st'
    | (inl e, st') => (inl e, st')
    end.

Notation "'let*' x ':=' c 'in' k" := (bind c (fun x => k))
  (at level 10, x pattern, c at level 100, k at level 200).
Notation "c '>>' k" := (bind c (fun _ => k))
  (at level 65, right associativity).

(** ** The Workflow instance *)

(** The fields the lifecycle methods read or assign; [description],
    [debug_mode], [monitoring], [telemetry] and the introspected signature
    of [run] play no part in them.  [name] and [session_name] are Python
    values because [from_workflow_session] assigns them whatever the
    persisted dictionary holds; [VNone] is Python's [None].  [storage] is
    the backend object: [None], or the backend with its current state. *)
Record Workflow (S : Type) := mkWorkflow {
  name : value;
  workflow_id : option string;
  workflow_data : option dict;
  user_id : option string;
  user_data : option dict;
  session_id : option string;
  session_name : value;
  session_data : option dict;
  session_state : option dict;
  memory : WorkflowMemory.t;
  storage : option S;
  _workflow_session : option WorkflowSession.t;
  run_id : option string;
  run_input : option value;
  run_response : RunResponse.t;
}.

Arguments mkWorkflow {S}.
Arguments name {S}. Arguments workflow_id {S}. Arguments workflow_data {S}.
Arguments user_id {S}. Arguments user_data {S}. Arguments session_id {S}.
Arguments session_name {S}. Arguments session_data {S}.
Arguments session_state {S}. Arguments memory {S}. Arguments storage {S}.
Arguments _workflow_session {S}. Arguments run_id {S}.
Arguments run_input {S}. Arguments run_response {S}.

Definition set_name {S} (x : value) (w : Workflow S) : Workflow S :=
  mkWorkflow x (workflow_id w) (workflow_data w) (user_id w) (user_data w)
    (session_id w) (session_name w) (session_data w) (session_state w)
    (memory w) (storage w) (_workflow_session w) (run_id w) (run_input w)
    (run_response w).
Definition set_workflow_id {S} (x : option string) (w : Workflow S) : Workflow S :=
  mkWorkflow (name w) x (workflow_data w) (user_id w) (user_data w)
    (session_id w) (session_name w) (session_data w) (session_state w)
    (memory w) (storage w) (_workflow_session w) (run_id w) (run_input w)
    (run_response w).
Definition set_workflow_data {S} (x : option dict) (w : Workflow S) : Workflow S :=
  mkWorkflow (name w) (workflow_id w) x (user_id w) (user_data w)
    (session_id w) (session_name w) (session_data w) (session_state w)
    (memory w) (storage w) (_workflow_session w) (run_id w) (run_input w)
    (run_response w).
Definition set_user_id {S} (x : option string) (w : Workflow S) : Workflow S :=
  mkWorkflow (name w) (workflow_id w) (workflow_data w) x (user_data w)
    (session_id w) (session_name w) (session_data w) (session_state w)
    (memory w) (storage w) (_workflow_session w) (run_id w) (run_input w)
    (run_response w).
Definition set_user_data {S} (x : option dict) (w : Workflow S) : Workflow S :=
  mkWorkflow (name w) (workflow_id w) (workflow_data w) (user_id w) x
    (session_id w) (session_name w) (session_data w) (session_state w)
    (memory w) (storage w) (_workflow_session w) (run_id w) (run_input w)
    (run_response w).
Definition set_session_id {S} (x : option string) (w : Workflow S) : Workflow S :=
  mkWorkflow (name w) (workflow_id w) (workflow_data w) (user_id w)
    (user_data w) x (session_name w) (session_data w) (session_state w)
    (memory w) (storage w) (_workflow_session w) (run_id w) (run_input w)
    (run_response w).
Definition set_session_name {S} (x : value) (w : Workflow S) : Workflow S :=
  mkWorkflow (name w) (workflow_id w) (workflow_data w) (user_id w)
    (user_data w) (session_id w) x (session_data w) (session_state w)
    (memory w) (storage w) (_workflow_session w) (run_id w) (run_input w)
    (run_response w).
Definition set_session_data {S} (x : option dict) (w : Workflow S) : Workflow S :=
  mkWorkflow (name w) (workflow_id w) (workflow_data w) (user_id w)
    (user_data w) (session_id w) (session_name w) x (session_state w)
    (memory w) (storage w) (_workflow_session w) (run_id w) (run_input w)
    (run_response w).
Definition set_session_state {S} (x : option dict) (w : Workflow S) : Workflow S :=
  mkWorkflow (name w) (workflow_id w) (workflow_data w) (user_id w)
    (user_data w) (session_id w) (session_name w) (session_data w) x (memory
    w) (storage w) (_workflow_session w) (run_id w) (run_input w)
    (run_response w).
Definition set_memory {S} (x : WorkflowMemory.t) (w : Workflow S) : Workflow S :=
  mkWorkflow (name w) (workflow_id w) (workflow_data w) (user_id w)
    (user_data w) (session_id w) (session_name w) (session_data w)
    (session_state w) x (storage w) (_workflow_session w) (run_id w)
    (run_input w) (run_response w).
Definition set_storage {S} (x : option S) (w : Workflow S) : Workflow S :=
  mkWorkflow (name w) (workflow_id w) (workflow_data w) (user_id w)
    (user_data w) (session_id w) (session_name w) (session_data w)
    (session_state w) (memory w) x (_workflow_session w) (run_id w)
    (run_input w) (run_response w).
Definition set__workflow_session {S} (x : option WorkflowSession.t) (w : Workflow S) : Workflow S :=
  mkWorkflow (name w) (workflow_id w) (workflow_data w) (user_id w)
    (user_data w) (session_id w) (session_name w) (session_data w)
    (session_state w) (memory w) (storage w) x (run_id w) (run_input w)
    (run_response w).
Definition set_run_id {S} (x : option string) (w : Workflow S) : Workflow S :=
  mkWorkflow (name w) (workflow_id w) (workflow_data w) (user_id w)
    (user_data w) (session_id w) (session_name w) (session_data w)
    (session_state w) (memory w) (storage w) (_workflow_session w) x
    (run_input w) (run_response w).
Definition set_run_input {S} (x : option value) (w : Workflow S) : Workflow S :=
  mkWorkflow (name w) (workflow_id w) (workflow_data w) (user_id w)
    (user_data w) (session_id w) (session_name w) (session_data w)
    (session_state w) (memory w) (storage w) (_workflow_session w) (run_id
    w) x (run_response w).
Definition set_run_response {S} (x : RunResponse.t) (w : Workflow S) : Workflow S :=
  mkWorkflow (name w) (workflow_id w) (workflow_data w) (user_id w)
    (user_data w) (session_id w) (session_name w) (session_data w)
    (session_state w) (memory w) (storage w) (_workflow_session w) (run_id
    w) (run_input w) x.

(** The generator object returned for a streaming run.  [source] is what the
    iterator of the run function has still to produce; [closed] is set once
    the generator body has run to its end. *)
Record result_generator := mkGenerator {
  source : list item;
  closed : bool;
}.

(** What [run_workflow] returns. *)
Inductive run_return :=
| ReturnGenerator (g : result_generator)
| ReturnResponse (r : RunResponse.t)
| ReturnNone.

(** [iter(v)] for the iterable values; [None] stands for the [TypeError]
    of a value that cannot be iterated. *)
Definition iterate (v : value) : option (list value) :=
  match v with
  | VList l | VTuple l => Some l
  | VDict d => Some (VStr <$> keys d)
  | VStr s => Some ((fun c => VStr (String c "")) <$> String.list_ascii_of_string s)
  | _ => None
  end.

(** [c += s] for a string [s]: concatenation on a string, extension by the
    characters on a list, a [TypeError] on everything else. *)
Definition iadd_str (c : value) (s : string) : exn + value :=
  match c with
  | VStr a => inr (VStr (a +:+ s))
  | VList l => inr (VList (l ++ ((fun c => VStr (String c "")) <$> String.list_ascii_of_string s)))
  | _ => inl (TypeError "unsupported operand type(s) for +=")
  end.

(** [item.run_id = ...; item.session_id = ...; item.workflow_id = ...] *)
Definition stamp {S} (w : Workflow S) (r : RunResponse.t) : RunResponse.t :=
  RunResponse.mk (RunResponse.content r) (run_id w) (session_id w) (workflow_id w).

(** The state the methods run in. *)
Record State (S : Type) := mkState {
  self : Workflow S;
  log : list event;
  uuids : nat;
}.
Arguments mkState {S}. Arguments self {S}. Arguments log {S}.
Arguments uuids {S}.

Definition get_self {S} : M (State S) (Workflow S) :=
  fun st => (inr (self st), st).

Definition modify_self {S} (f : Workflow S -> Workflow S) : M (State S) unit :=
  fun st => (inr tt, mkState (f (self st)) (log st) (uuids st)).

Definition emit {S} (e : event) : M (State S) unit :=
  fun st => (inr tt, mkState (self st) (log st ++ [e]) (uuids st)).

Definition draw {S} : M (State S) nat :=
  fun st => (inr (uuids st), mkState (self st) (log st) (Datatypes.S (uuids st))).

Definition lift {S A} (r : exn + A) : M (State S) A :=
  fun st => (r, st).

(** [d.get(k)] *)
Definition py_get (d : dict) (k : string) : value :=
  default VNone (dict_get d k).

(** [if n is not None: d[k] = n] *)
Definition with_name (k : string) (n : value) (d : dict) : dict :=
  if is_none n then d else dict_set d k n.

(** ** A concrete setting

    An instance of every parameter of the methods, for the examples: a
    counter-based [uuid4], a serialisation of the memory and the matching
    validation of a run record, and a workflow over the in-memory backend. *)

Definition example_uuid4 (n : nat) : string := "run-" +:+ pretty n.

Definition option_field (k : string) (o : option value) : dict :=
  match o with
  | Some v => [(k, v)]
  | None => []
  end.

Definition response_to_dict (r : RunResponse.t) : dict :=
  [("content", RunResponse.content r)]
  ++ option_field "run_id" (VStr <$> RunResponse.run_id r)
  ++ option_field "session_id" (VStr <$> RunResponse.session_id r)
  ++ option_field "workflow_id" (VStr <$> RunResponse.workflow_id r).

Definition run_to_dict (r : WorkflowRun.t) : value :=
  VDict (option_field "input" (WorkflowRun.input r)
         ++ option_field "response"
              (VDict <$> (response_to_dict <$> WorkflowRun.response r))).

Definition example_to_dict (m : WorkflowMemory.t) : dict :=
  [("runs", VList (run_to_dict <$> WorkflowMemory.runs m))].

(** An optional string field: absent or [None], or a string. *)
Definition string_field (d : dict) (k : string) : option (option string) :=
  match dict_get d k with
  | None | Some VNone => Some None
  | Some (VStr s) => Some (Some s)
  | Some _ => None
  end.

Definition response_of_dict (d : dict) : option RunResponse.t :=
  rid ← string_field d "run_id";
  sid ← string_field d "session_id";
  wid ← string_field d "workflow_id";
  Some (RunResponse.mk (py_get d "content") rid sid wid).

Definition example_validate (d : dict) : option WorkflowRun.t :=
  input ← match dict_get d "input" with
          | None | Some VNone => Some None
          | Some (VDict i) => Some (Some (VDict i))
          | Some _ => None
          end;
  response ← match dict_get d "response" with
             | None | Some VNone => Some None
             | Some (VDict r) => Some <$> response_of_dict r
             | Some _ => None
             end;
  Some (WorkflowRun.mk input response).

(** Three response fragments and, between them, something that is not a
    response. *)
Definition hello_world : list item :=
  [ItemResponse (RunResponse.mk (VStr "Hello") None None None);
   ItemResponse (RunResponse.mk (VStr " ") (Some "mine") (Some "other") None);
   ItemOther (VInt 7);
   ItemResponse (RunResponse.mk (VInt 0) None None None);
   ItemResponse (RunResponse.mk (VStr "World") None None None)].

Definition example_stream
    (w : Workflow (gmap string WorkflowSession.t))
    (args : list value) (kwargs : dict) : run_result :=
  ResultIterator hello_world.

(** A freshly constructed workflow over an empty storage. *)
Definition fresh_workflow : Workflow (gmap string WorkflowSession.t) :=
  mkWorkflow (VStr "Greeter") (Some "wf-1") None None None (Some "s-1") VNone
    None (Some []) (WorkflowMemory.mk []) (Some ∅) None None None
    (RunResponse.mk VNone None None None).

Definition fresh_state : State (gmap string WorkflowSession.t) :=
  mkState fresh_workflow [] 0.

(** A persisted session whose history has a malformed entry between two
    good ones. *)
Definition good_entry (n : Z) : value :=
  VDict [("input", VDict [("args", VTuple [VInt n]); ("kwargs", VDict [])])].

Definition session_with_runs (entries : list value) : WorkflowSession.t :=
  WorkflowSession.mk (Some "s-1") (Some "wf-1") None
    (Some [("runs", VList entries)]) (Some []) None (Some []) (Some []).

(** Three levels of nesting on both sides. *)
Definition persisted_example : dict :=
  [("a", VDict [("b", VDict [("c", VInt 1); ("keep", VStr "p")]);
                ("only_p", VInt 5)]);
   ("scalar", VInt 10)].

Definition local_example : dict :=
  [("a", VDict [("b", VDict [("c", VInt 2); ("new", VStr "l")])]);
   ("scalar", VInt 20);
   ("only_l", VBool true)].

(** The state of the in-memory backend. *)
Abbreviation store := (gmap string WorkflowSession.t).

(** A workflow whose storage holds one session. *)
Definition stored_state : State (gmap string WorkflowSession.t) :=
  mkState
    (set_storage (Some {["s-1" := session_with_runs []]}) fresh_workflow) [] 0.



(** An instance without a name whose metadata carries one, and a persisted
    session that carries another. *)
Definition unnamed_state : State (gmap string WorkflowSession.t) :=
  mkState
    (set_workflow_data (Some [("name", VStr "local")])
       (set_name VNone fresh_workflow)) [] 0.

Definition named_session : WorkflowSession.t :=
  WorkflowSession.mk (Some "s-1") (Some "wf-1") None None
    (Some [("name", VStr "persisted"); ("version", VInt 3)]) None None None.

(** A backend that stores nothing: it finds no record and answers an upsert
    with nothing. *)
#[export] Instance null_storage : WorkflowStorage.t unit :=
  WorkflowStorage.mk _
    (fun db _ => (db, None))
    (fun db _ => (db, None))
    (fun db _ => db).


(** The workflow of [stored_state] once it has loaded its session. *)
Definition cached_state : State store :=
  mkState
    (set__workflow_session (Some (session_with_runs [])) (self stored_state))
    [] 0.

(** A workflow with metadata of its own and a session name. *)
Definition titled_state : State store :=
  mkState
    (set_session_name (VStr "first talk")
       (set_session_data (Some [])
          (set_workflow_data (Some [("version", VInt 2)]) fresh_workflow)))
    [] 0.


Definition example_malformed
    (w : Workflow store) (args : list value) (kwargs : dict) : run_result :=
  ResultOther (VInt 3).

(** A run function that streams when called without arguments and returns
    something else otherwise. *)
Definition example_mixed
    (w : Workflow store) (args : list value) (kwargs : dict) : run_result :=
  match args with
  | [] => ResultIterator hello_world
  | _ => ResultOther VNone
  end.

(** ** The methods of [Workflow] *)

Section Methods.
Context {S : Type} `{!WorkflowStorage.t S}.

(** [str(uuid4())]: the identifier produced by the n-th call. *)
Variable uuid4 : nat -> string.
(** [WorkflowMemory.to_dict] of [phi.memory.workflow]. *)
Variable to_dict : WorkflowMemory.t -> dict.
(** The validation behind [WorkflowRun( **m)] for a dictionary [m];
    [None] when it raises. *)
Variable WorkflowRun_validate : dict -> option WorkflowRun.t.
(** The [run] method of the subclass, bound to the instance.  It reads the
    instance and its arguments; a streaming run hands back the fragments
    its iterator will produce, which the wrapper pulls one at a time. *)
Variable _subclass_run : Workflow S -> list value -> dict -> run_result.

Definition get_workflow_data : M (State S) dict :=
  let* w := get_self in
  match workflow_data w with
  | Some d =>
      if truthy (VDict d) then
        (* the dictionary of the instance itself is updated *)
        let d' := with_name "name" (name w) d in
        modify_self (set_workflow_data (Some d')) >> ret d'
      else ret (with_name "name" (name w) [])
  | None => ret (with_name "name" (name w) [])
  end.

Definition get_session_data : M (State S) dict :=
  let* w := get_self in
  match session_data w with
  | Some d =>
      if truthy (VDict d) then
        let d' := with_name "session_name" (session_name w) d in
        modify_self (set_session_data (Some d')) >> ret d'
      else ret (with_name "session_name" (session_name w) [])
  | None => ret (with_name "session_name" (session_name w) [])
  end.

Definition get_workflow_session : M (State S) WorkflowSession.t :=
  let* w := get_self in
  let memory_dict := to_dict (memory w) in
  let* workflow_data := get_workflow_data in
  let* session_data := get_session_data in
  ret (WorkflowSession.mk (session_id w) (workflow_id w) (user_id w)
         (Some memory_dict) (Some workflow_data) (user_data w)
         (Some session_data) (session_state w)).

(** [WorkflowRun( **m)]: only a mapping can be unpacked. *)
Definition WorkflowRun_kwargs (m : value) : option WorkflowRun.t :=
  match m with
  | VDict d => WorkflowRun_validate d
  | _ => None
  end.

(** [[WorkflowRun( **m) for m in runs]]; [None] when anything raises. *)
Definition load_runs (runs : value) : option (list WorkflowRun.t) :=
  match iterate runs with
  | Some ms => mapM WorkflowRun_kwargs ms
  | None => None
  end.

(** One of the four blocks "Read ... from the database": the persisted
    dictionary absorbs the one of the instance and becomes the one of the
    instance.  The result is the content of the persisted dictionary
    afterwards. *)
Definition absorb (persisted : dict) (local : option dict) : dict :=
  match local with
  | Some l => merge_dictionaries persisted l
  | None => persisted
  end.

(** [from_workflow_session], block by block.  The session object is
    updated in place; each block that touches it hands back the object as
    it is afterwards. *)

(** "Get the session_id, workflow_id and user_id from the database" *)
Definition read_ids (session : WorkflowSession.t) : M (State S) unit :=
  modify_self (fun w =>
    match session_id w, WorkflowSession.session_id session with
    | None, Some x => set_session_id (Some x) w
    | _, _ => w
    end) >>
  modify_self (fun w =>
    match workflow_id w, WorkflowSession.workflow_id session with
    | None, Some x => set_workflow_id (Some x) w
    | _, _ => w
    end) >>
  modify_self (fun w =>
    match user_id w, WorkflowSession.user_id session with
    | None, Some x => set_user_id (Some x) w
    | _, _ => w
    end).

(** "Read workflow_data from the database" *)
Definition read_workflow_data (session : WorkflowSession.t)
  : M (State S) WorkflowSession.t :=
  match WorkflowSession.workflow_data session with
  | Some persisted =>
      modify_self (fun w =>
        if is_none (name w) && dict_mem persisted "name"
        then set_name (py_get persisted "name") w else w) >>
      let* w := get_self in
      let merged := absorb persisted (workflow_data w) in
      modify_self (set_workflow_data (Some merged)) >>
      ret (WorkflowSession.set_workflow_data (Some merged) session)
  | None => ret session
  end.

(** "Read user_data from the database" *)
Definition read_user_data (session : WorkflowSession.t)
  : M (State S) WorkflowSession.t :=
  match WorkflowSession.user_data session with
  | Some persisted =>
      let* w := get_self in
      let merged := absorb persisted (user_data w) in
      modify_self (set_user_data (Some merged)) >>
      ret (WorkflowSession.set_user_data (Some merged) session)
  | None => ret session
  end.

(** "Read session_data from the database" *)
Definition read_session_data (session : WorkflowSession.t)
  : M (State S) WorkflowSession.t :=
  match WorkflowSession.session_data session with
  | Some persisted =>
      modify_self (fun w =>
        if is_none (session_name w) && dict_mem persisted "session_name"
        then set_session_name (py_get persisted "session_name") w else w) >>
      let* w := get_self in
      let merged := absorb persisted (session_data w) in
      modify_self (set_session_data (Some merged)) >>
      ret (WorkflowSession.set_session_data (Some merged) session)
  | None => ret session
  end.

(** "Read session_state from the database" *)
Definition read_session_state (session : WorkflowSession.t)
  : M (State S) WorkflowSession.t :=
  match WorkflowSession.session_state session with
  | Some persisted =>
      let* w := get_self in
      let merged := absorb persisted (session_state w) in
      modify_self (set_session_state (Some merged)) >>
      ret (WorkflowSession.set_session_state (Some merged) session)
  | None => ret session
  end.

(** "Read memory from the database": the comprehension runs inside the
    [try]; when anything in it raises, the assignment does not happen
    and the warning is logged. *)
Definition read_memory (session : WorkflowSession.t) : M (State S) unit :=
  match WorkflowSession.memory session with
  | Some m =>
      match dict_get m "runs" with
      | Some runs =>
          match load_runs runs with
          | Some rs => modify_self (set_memory (WorkflowMemory.mk rs))
          | None => emit (LoggerWarning "Failed to load WorkflowMemory")
          end
      | None => ret tt
      end
  | None => ret tt
  end.

Definition from_workflow_session (session : WorkflowSession.t)
  : M (State S) WorkflowSession.t :=
  read_ids session >>
  let* session := read_workflow_data session in
  let* session := read_user_data session in
  let* session := read_session_data session in
  let* session := read_session_state session in
  read_memory session >>
  ret session.

Definition read_from_storage : M (State S) (option WorkflowSession.t) :=
  let* w := get_self in
  match storage w, session_id w with
  | Some db, Some sid =>
      let '(db', found) := WorkflowStorage.read db sid in
      emit (StorageRead sid) >>
      modify_self (set_storage (Some db')) >>
      modify_self (set__workflow_session found) >>
      match found with
      | Some session =>
          let* session' := from_workflow_session session in
          (* the cached record is the object just updated *)
          modify_self (set__workflow_session (Some session'))
      | None => ret tt
      end
  | _, _ => ret tt
  end >>
  let* w := get_self in
  ret (_workflow_session w).

Definition write_to_storage : M (State S) (option WorkflowSession.t) :=
  let* w := get_self in
  match storage w with
  | Some db =>
      let* session := get_workflow_session in
      let '(db', echoed) := WorkflowStorage.upsert db session in
      emit (StorageUpsert session) >>
      modify_self (set_storage (Some db')) >>
      modify_self (set__workflow_session echoed)
  | None => ret tt
  end >>
  let* w := get_self in
  ret (_workflow_session w).

Definition load_session (force : bool) : M (State S) (option string) :=
  let* w := get_self in
  match
    match _workflow_session w, force with
    | Some ws, false =>
        match session_id w with
        | Some sid =>
            if bool_decide (WorkflowSession.session_id ws = Some sid)
            then Some (WorkflowSession.session_id ws) else None
        | None => None
        end
    | _, _ => None
    end
  with
  | Some cached => ret cached
  | None =>
      match storage w with
      | Some _ =>
          read_from_storage >>
          let* w := get_self in
          match _workflow_session w with
          | None =>
              write_to_storage >>
              let* w := get_self in
              match _workflow_session w with
              | None => raise (Exception "Failed to create new WorkflowSession in storage")
              | Some _ => ret tt
              end
          | Some _ => ret tt
          end
      | None => ret tt
      end >>
      let* w := get_self in
      ret (session_id w)
  end.

(** [self.memory.add_run(WorkflowRun(input=self.run_input,
    response=self.run_response))] *)
Definition add_run : M (State S) unit :=
  let* w := get_self in
  let r := WorkflowRun.mk (run_input w) (Some (run_response w)) in
  emit (MemoryAddRun r) >>
  modify_self (set_memory (WorkflowMemory.add_run r (memory w))).

(** [run_workflow] up to the call of the run function. *)
Definition run_workflow_begin (args : list value) (kwargs : dict)
  : M (State S) unit :=
  let* n := draw in
  modify_self (set_run_id (Some (uuid4 n))) >>
  modify_self (set_run_input
    (Some (VDict [("args", VTuple args); ("kwargs", VDict kwargs)]))) >>
  modify_self (fun w =>
    set_run_response
      (RunResponse.mk VNone (run_id w) (session_id w) (workflow_id w)) w) >>
  read_from_storage >>
  ret tt.

(** One [next()] on the generator [result_generator()]: the body runs
    from where it was suspended to its next [yield], or to its end, which
    the caller sees as [None] ([StopIteration]). *)
Definition result_generator_next (g : result_generator)
  : M (State S) (option item * result_generator) :=
  if closed g then ret (None, g)
  else
    match source g with
    | it :: rest =>
        let* it' :=
          match it with
          | ItemResponse r =>
              let* w := get_self in
              let r' := stamp w r in
              match RunResponse.content r' with
              | VStr s =>
                  let* c := lift (iadd_str (RunResponse.content (run_response w)) s) in
                  modify_self
                    (set_run_response (RunResponse.set_content c (run_response w)))
              | _ => ret tt
              end >>
              ret (ItemResponse r')
          | ItemOther _ =>
              emit (LoggerWarning "Workflow.run() should only yield RunResponse objects") >>
              ret it
          end in
        emit (Yield it') >>
        ret (Some it', mkGenerator rest false)
    | [] =>
        add_run >>
        write_to_storage >>
        ret (None, mkGenerator [] true)
    end.

(** [run_workflow] from the result of the run function on. *)
Definition run_workflow_finish (result : run_result) : M (State S) run_return :=
  match result with
  | ResultIterator items =>
      modify_self (fun w =>
        set_run_response (RunResponse.set_content (VStr "") (run_response w)) w) >>
      ret (ReturnGenerator (mkGenerator items false))
  | ResultResponse r =>
      let* w := get_self in
      let r' := stamp w r in
      match RunResponse.content r' with
      | VStr s =>
          modify_self
            (set_run_response (RunResponse.set_content (VStr s) (run_response w)))
      | _ => ret tt
      end >>
      add_run >>
      write_to_storage >>
      ret (ReturnResponse r')
  | ResultOther _ =>
      emit (LoggerWarning "Workflow.run() should only return RunResponse objects") >>
      ret ReturnNone
  end.

Definition run_workflow (args : list value) (kwargs : dict)
  : M (State S) run_return :=
  run_workflow_begin args kwargs >>
  let* w := get_self in
  emit (SubclassRun args kwargs) >>
  run_workflow_finish (_subclass_run w args kwargs).

(** A consumer that calls [next()] at most [n] times and stops at the
    first [StopIteration]; the result is what it received and the
    generator as it leaves it. *)
Fixpoint pull (n : nat) (g : result_generator)
  : M (State S) (list item * result_generator) :=
  match n with
  | O => ret ([], g)
  | Datatypes.S n' =>
      let* (o, g1) := result_generator_next g in
      match o with
      | None => ret ([], g1)
      | Some it =>
          let* (its, g2) := pull n' g1 in
          ret (it :: its, g2)
      end
  end.

Definition rename_session (session_id : string) (name : string)
  : M (State S) unit :=
  let* w := get_self in
  match storage w with
  | None => raise (AttributeError "'NoneType' object has no attribute 'read'")
  | Some db =>
      let '(db1, found) := WorkflowStorage.read db session_id in
      emit (StorageRead session_id) >>
      modify_self (set_storage (Some db1)) >>
      match found with
      | None => raise (Exception ("WorkflowSession not found: " +:+ session_id))
      | Some workflow_session =>
          match WorkflowSession.session_data workflow_session with
          | None =>
              raise (TypeError "'NoneType' object does not support item assignment")
          | Some d =>
              let renamed :=
                WorkflowSession.set_session_data
                  (Some (dict_set d "session_name" (VStr name))) workflow_session in
              let '(db2, _) := WorkflowStorage.upsert db1 renamed in
              emit (StorageUpsert renamed) >>
              modify_self (set_storage (Some db2))
          end
      end
  end.

Definition delete_session (session_id : string) : M (State S) unit :=
  let* w := get_self in
  match storage w with
  | None =>
      raise (AttributeError "'NoneType' object has no attribute 'delete_session'")
  | Some db =>
      emit (StorageDelete session_id) >>
      modify_self (set_storage (Some (WorkflowStorage.delete_session db session_id)))
  end.

(** [if cur is None and persisted is not None: cur = persisted] *)
Definition adopt (cur persisted : option string) : option string :=
  match cur with
  | None => persisted
  | Some _ => cur
  end.

(** The persisted value under ["runs"], if there is one. *)
Definition persisted_runs (session : WorkflowSession.t) : option value :=
  match WorkflowSession.memory session with
  | Some m => dict_get m "runs"
  | None => None
  end.

(** The text a fragment contributes to the accumulated content. *)
Definition text_of (it : item) : string :=
  match it with
  | ItemResponse r =>
      match RunResponse.content r with
      | VStr s => s
      | _ => ""
      end
  | ItemOther _ => ""
  end.

(** The run record [add_run] builds in state [st]. *)
Definition run_record (st : State S) : WorkflowRun.t :=
  WorkflowRun.mk (run_input (self st)) (Some (run_response (self st))).

(** The fragment as the consumer receives it. *)
Definition stamp_item (w : Workflow S) (it : item) : item :=
  match it with
  | ItemResponse r => ItemResponse (stamp w r)
  | ItemOther v => ItemOther v
  end.

(** What the generator logs while it handles one fragment. *)
Definition item_log (w : Workflow S) (it : item) : list event :=
  match it with
  | ItemResponse r => [Yield (ItemResponse (stamp w r))]
  | ItemOther v =>
      [LoggerWarning "Workflow.run() should only yield RunResponse objects";
       Yield (ItemOther v)]
  end.

Definition stream_log (w : Workflow S) (its : list item) : list event :=
  its ≫= item_log w.

(** The string contents of the fragments, concatenated in order. *)
Definition accumulated (its : list item) : string :=
  foldr (fun it s => text_of it +:+ s) "" its.

(** The state once the generator has yielded the fragments [its], from a
    state whose outer response held the text [acc]. *)
Definition streamed (st : State S) (acc : string) (its : list item) : State S :=
  mkState
    (set_run_response
       (RunResponse.set_content (VStr (acc +:+ accumulated its))
          (run_response (self st)))
       (self st))
    (log st ++ stream_log (self st) its) (uuids st).

(** The warning [from_workflow_session] logs for a session whose history
    does not load. *)
Definition load_warnings (session : WorkflowSession.t) : list event :=
  match persisted_runs session with
  | Some runs =>
      match load_runs runs with
      | Some _ => []
      | None => [LoggerWarning "Failed to load WorkflowMemory"]
      end
  | None => []
  end.

(** What [read_from_storage] logs when called on the instance [w]. *)
Definition read_log (w : Workflow S) : list event :=
  match storage w, session_id w with
  | Some db, Some sid =>
      StorageRead sid ::
      match (WorkflowStorage.read db sid).2 with
      | Some session => load_warnings session
      | None => []
      end
  | _, _ => []
  end.

(** The first statement of [__init__] after the fields are validated:
    [self.name = self.name or self.__class__.__name__]. *)
Definition init_name (class_name : string) (w : Workflow S) : Workflow S :=
  set_name (if truthy (name w) then name w else VStr class_name) w.

(** * Properties *)

(** ** The monad *)

Lemma bind_inr {St A B} (c : M St A) (k : A -> M St B) st a st' :
  c st = (inr a, st') -> bind c k st = k a st'.
Proof. unfold bind. by intros ->. Qed.

(** ** Dictionaries *)

Lemma dict_get_set_eq (d : dict) k v : dict_get (dict_set d k v) k = Some v.
Proof.
  induction d as [|[k' v'] d IH]; simpl.
  - by rewrite decide_True.
  - destruct (decide (k' = k)) as [->|Hne]; simpl.
    + by rewrite decide_True.
    + by rewrite decide_False.
Qed.

Lemma dict_get_set_ne (d : dict) k k' v :
  k ≠ k' -> dict_get (dict_set d k v) k' = dict_get d k'.
Proof.
  intros Hne. induction d as [|[k0 v0] d IH]; simpl.
  - by rewrite decide_False.
  - destruct (decide (k0 = k)) as [->|Hne0]; simpl.
    + by rewrite !decide_False.
    + by rewrite IH.
Qed.

Lemma dict_get_None (d : dict) k : dict_get d k = None <-> k ∉ keys d.
Proof.
  unfold keys. induction d as [|[k0 v0] d IH]; simpl.
  - split; [intros _; apply not_elem_of_nil | done].
  - rewrite not_elem_of_cons. destruct (decide (k0 = k)) as [->|Hne].
    + split; [done | intros [? _]; done].
    + rewrite IH. split; [intros ?; split; [congruence | done] | tauto].
Qed.

Lemma merge_dictionaries_cons (a b : dict) k v :
  merge_dictionaries a ((k, v) :: b) =
  merge_dictionaries
    (dict_set a k
       match dict_get a k with
       | Some old => merge_value old v
       | None => v
       end) b.
Proof. reflexivity. Qed.

Lemma merge_value_dict (a b : dict) :
  merge_value (VDict a) (VDict b) = VDict (merge_dictionaries a b).
Proof. reflexivity. Qed.

Lemma merge_value_scalar old new : is_dict new = false -> merge_value old new = new.
Proof. by destruct old, new. Qed.

Lemma merge_value_over_scalar old new : is_dict old = false -> merge_value old new = new.
Proof. by destruct old, new. Qed.

Lemma merge_get_absent (a b : dict) k :
  dict_get b k = None -> dict_get (merge_dictionaries a b) k = dict_get a k.
Proof.
  revert a. induction b as [|[k0 v0] b IH]; intros a Hk; [done|].
  simpl in Hk. destruct (decide (k0 = k)) as [->|Hne]; [done|].
  rewrite merge_dictionaries_cons, IH by done.
  by apply dict_get_set_ne.
Qed.

Lemma merge_get_present (a b : dict) k v :
  NoDup (keys b) -> dict_get b k = Some v ->
  dict_get (merge_dictionaries a b) k =
  Some match dict_get a k with
       | Some old => merge_value old v
       | None => v
       end.
Proof.
  revert a. induction b as [|[k0 v0] b IH]; intros a Hnd Hk; [done|].
  unfold keys in Hnd. simpl in Hnd, Hk. apply NoDup_cons in Hnd as [Hk0 Hnd].
  rewrite merge_dictionaries_cons.
  destruct (decide (k0 = k)) as [->|Hne].
  - injection Hk as ->.
    rewrite merge_get_absent by by apply dict_get_None.
    apply dict_get_set_eq.
  - rewrite (IH _ Hnd Hk). by rewrite dict_get_set_ne.
Qed.

Lemma unique_keys_NoDup (d : dict) :
  unique_keys (VDict d) = true -> NoDup (keys d).
Proof.
  simpl. intros [Hd _]%andb_prop. by apply bool_decide_eq_true in Hd.
Qed.

Lemma unique_keys_get (d : dict) k v :
  unique_keys (VDict d) = true -> dict_get d k = Some v -> unique_keys v = true.
Proof.
  simpl. intros [_ Hall]%andb_prop. revert Hall.
  induction d as [|[k0 v0] d IH]; simpl; [done|].
  intros [Hv Hall]%andb_prop. destruct (decide (k0 = k)); [|by auto].
  by intros [= <-].
Qed.

(** A scalar that the local dictionary holds at some path, however deep,
    is what the merged dictionary holds at that path. *)
Lemma merge_value_at_local (ks : list string) :
  forall (a b : dict) v,
    unique_keys (VDict b) = true ->
    ks ≠ [] ->
    value_at (VDict b) ks = Some v ->
    is_dict v = false ->
    value_at (VDict (merge_dictionaries a b)) ks = Some v.
Proof.
  induction ks as [|k ks IH]; intros a b v Hu Hks Hb Hv; [done|].
  simpl in Hb |- *.
  destruct (dict_get b k) as [vb|] eqn:Hbk; [|done].
  rewrite (merge_get_present a b k vb (unique_keys_NoDup _ Hu) Hbk).
  destruct (dict_get a k) as [old|]; [|done].
  destruct ks as [|k' ks'].
  - injection Hb as ->. by rewrite merge_value_scalar.
  - destruct vb as [| | | | | |db]; try done.
    destruct (is_dict old) eqn:Hold.
    + destruct old as [| | | | | |da]; try done.
      rewrite merge_value_dict. apply IH; try done.
      by apply (unique_keys_get b k).
    + by rewrite merge_value_over_scalar.
Qed.

(** A value that the persisted dictionary holds at a path along which the
    local dictionaries stop having the key survives the merge. *)
Lemma merge_value_at_persisted (ks1 : list string) :
  forall (a b db : dict) k ks2 v,
    unique_keys (VDict b) = true ->
    value_at (VDict b) ks1 = Some (VDict db) ->
    dict_get db k = None ->
    value_at (VDict a) (ks1 ++ k :: ks2) = Some v ->
    value_at (VDict (merge_dictionaries a b)) (ks1 ++ k :: ks2) = Some v.
Proof.
  induction ks1 as [|k1 ks1 IH]; intros a b db k ks2 v Hu Hb Hk Ha.
  - injection Hb as ->. simpl in Ha |- *. by rewrite merge_get_absent.
  - simpl in Hb, Ha |- *.
    destruct (dict_get b k1) as [vb|] eqn:Hbk; [|done].
    destruct (dict_get a k1) as [va|] eqn:Hak; [|done].
    rewrite (merge_get_present a b k1 vb (unique_keys_NoDup _ Hu) Hbk), Hak.
    assert (exists b', vb = VDict b') as [b' ->].
    { destruct vb; destruct ks1; try done; eauto. }
    assert (exists a', va = VDict a') as [a' ->].
    { destruct va; destruct ks1; try done; eauto. }
    rewrite merge_value_dict. eapply IH; eauto.
    by apply (unique_keys_get b k1).
Qed.

(** ** Loading a persisted session *)

Ltac run :=
  cbv beta iota delta [bind ret raise lift modify_self get_self emit draw];
  simpl.

Lemma read_ids_eq (session : WorkflowSession.t) (st : State S) :
  read_ids session st =
  (inr tt,
   mkState
     (set_user_id (adopt (user_id (self st)) (WorkflowSession.user_id session))
        (set_workflow_id
           (adopt (workflow_id (self st)) (WorkflowSession.workflow_id session))
           (set_session_id
              (adopt (session_id (self st)) (WorkflowSession.session_id session))
              (self st))))
     (log st) (uuids st)).
Proof.
  destruct st as [w lg n], session as [[?|] [?|] [?|] ? ? ? ? ?].
  all: destruct w as [? [?|] ? [?|] ? [?|] ? ? ? ? ? ? ? ? ?]; reflexivity.
Qed.

Lemma read_workflow_data_eq (session : WorkflowSession.t) (st : State S) :
  read_workflow_data session st =
  (inr (WorkflowSession.set_workflow_data
          ((fun p => absorb p (workflow_data (self st))) <$>
             WorkflowSession.workflow_data session) session),
   mkState
     (set_workflow_data
        (match WorkflowSession.workflow_data session with
         | Some p => Some (absorb p (workflow_data (self st)))
         | None => workflow_data (self st)
         end)
        (set_name
           (match WorkflowSession.workflow_data session with
            | Some p =>
                if is_none (name (self st)) && dict_mem p "name"
                then py_get p "name" else name (self st)
            | None => name (self st)
            end) (self st)))
     (log st) (uuids st)).
Proof.
  destruct st as [w lg n], session as [? ? ? ? [p|] ? ? ?], w.
  - unfold read_workflow_data. run.
    by destruct (is_none _ && dict_mem p "name").
  - reflexivity.
Qed.

Lemma read_user_data_eq (session : WorkflowSession.t) (st : State S) :
  read_user_data session st =
  (inr (WorkflowSession.set_user_data
          ((fun p => absorb p (user_data (self st))) <$>
             WorkflowSession.user_data session) session),
   mkState
     (set_user_data
        (match WorkflowSession.user_data session with
         | Some p => Some (absorb p (user_data (self st)))
         | None => user_data (self st)
         end) (self st))
     (log st) (uuids st)).
Proof.
  by destruct st as [w lg n], session as [? ? ? ? ? [p|] ? ?], w.
Qed.

Lemma read_session_data_eq (session : WorkflowSession.t) (st : State S) :
  read_session_data session st =
  (inr (WorkflowSession.set_session_data
          ((fun p => absorb p (session_data (self st))) <$>
             WorkflowSession.session_data session) session),
   mkState
     (set_session_data
        (match WorkflowSession.session_data session with
         | Some p => Some (absorb p (session_data (self st)))
         | None => session_data (self st)
         end)
        (set_session_name
           (match WorkflowSession.session_data session with
            | Some p =>
                if is_none (session_name (self st)) && dict_mem p "session_name"
                then py_get p "session_name" else session_name (self st)
            | None => session_name (self st)
            end) (self st)))
     (log st) (uuids st)).
Proof.
  destruct st as [w lg n], session as [? ? ? ? ? ? [p|] ?], w.
  - unfold read_session_data. run.
    by destruct (is_none _ && dict_mem p "session_name").
  - reflexivity.
Qed.

Lemma read_session_state_eq (session : WorkflowSession.t) (st : State S) :
  read_session_state session st =
  (inr (WorkflowSession.set_session_state
          ((fun p => absorb p (session_state (self st))) <$>
             WorkflowSession.session_state session) session),
   mkState
     (set_session_state
        (match WorkflowSession.session_state session with
         | Some p => Some (absorb p (session_state (self st)))
         | None => session_state (self st)
         end) (self st))
     (log st) (uuids st)).
Proof.
  by destruct st as [w lg n], session as [? ? ? ? ? ? ? [p|]], w.
Qed.

Lemma read_memory_eq (session : WorkflowSession.t) (st : State S) :
  read_memory session st =
  (inr tt,
   mkState
     (set_memory
        (match persisted_runs session with
         | Some runs =>
             match load_runs runs with
             | Some rs => WorkflowMemory.mk rs
             | None => memory (self st)
             end
         | None => memory (self st)
         end) (self st))
     (log st ++
        match persisted_runs session with
        | Some runs =>
            match load_runs runs with
            | Some _ => []
            | None => [LoggerWarning "Failed to load WorkflowMemory"]
            end
        | None => []
        end)
     (uuids st)).
Proof.
  destruct st as [w lg n], session as [? ? ? [m|] ? ? ? ?], w;
    unfold read_memory, persisted_runs; simpl.
  - destruct (dict_get m "runs") as [runs|]; [destruct (load_runs runs)|];
      run; by rewrite ?app_nil_r.
  - run. by rewrite app_nil_r.
Qed.

(** What [from_workflow_session] leaves behind, field by field. *)
Lemma from_workflow_session_spec (session : WorkflowSession.t) (st : State S) :
  exists session' st',
    from_workflow_session session st = (inr session', st') /\
    uuids st' = uuids st /\
    session_id (self st') =
      adopt (session_id (self st)) (WorkflowSession.session_id session) /\
    workflow_id (self st') =
      adopt (workflow_id (self st)) (WorkflowSession.workflow_id session) /\
    user_id (self st') =
      adopt (user_id (self st)) (WorkflowSession.user_id session) /\
    name (self st') =
      match WorkflowSession.workflow_data session with
      | Some p =>
          if is_none (name (self st)) && dict_mem p "name"
          then py_get p "name" else name (self st)
      | None => name (self st)
      end /\
    session_name (self st') =
      match WorkflowSession.session_data session with
      | Some p =>
          if is_none (session_name (self st)) && dict_mem p "session_name"
          then py_get p "session_name" else session_name (self st)
      | None => session_name (self st)
      end /\
    WorkflowSession.workflow_data session' =
      (fun p => absorb p (workflow_data (self st))) <$>
        WorkflowSession.workflow_data session /\
    WorkflowSession.user_data session' =
      (fun p => absorb p (user_data (self st))) <$>
        WorkflowSession.user_data session /\
    WorkflowSession.session_data session' =
      (fun p => absorb p (session_data (self st))) <$>
        WorkflowSession.session_data session /\
    WorkflowSession.session_state session' =
      (fun p => absorb p (session_state (self st))) <$>
        WorkflowSession.session_state session /\
    workflow_data (self st') =
      from_option Some (workflow_data (self st))
        (WorkflowSession.workflow_data session') /\
    user_data (self st') =
      from_option Some (user_data (self st))
        (WorkflowSession.user_data session') /\
    session_data (self st') =
      from_option Some (session_data (self st))
        (WorkflowSession.session_data session') /\
    session_state (self st') =
      from_option Some (session_state (self st))
        (WorkflowSession.session_state session') /\
    WorkflowSession.session_id session' = WorkflowSession.session_id session /\
    WorkflowSession.workflow_id session' = WorkflowSession.workflow_id session /\
    WorkflowSession.user_id session' = WorkflowSession.user_id session /\
    WorkflowSession.memory session' = WorkflowSession.memory session /\
    storage (self st') = storage (self st) /\
    _workflow_session (self st') = _workflow_session (self st) /\
    run_id (self st') = run_id (self st) /\
    run_input (self st') = run_input (self st) /\
    run_response (self st') = run_response (self st) /\
    memory (self st') =
      match persisted_runs session with
      | Some runs =>
          match load_runs runs with
          | Some rs => WorkflowMemory.mk rs
          | None => memory (self st)
          end
      | None => memory (self st)
      end /\
    log st' =
      log st ++
      match persisted_runs session with
      | Some runs =>
          match load_runs runs with
          | Some _ => []
          | None => [LoggerWarning "Failed to load WorkflowMemory"]
          end
      | None => []
      end.
Proof.
  unfold from_workflow_session.
  pose proof (read_ids_eq session st) as H1.
  remember (mkState _ _ _) as st1 eqn:E1 in H1.
  rewrite (bind_inr _ _ _ _ _ H1); clear H1; cbv beta.
  pose proof (read_workflow_data_eq session st1) as H2.
  remember (mkState _ _ _) as st2 eqn:E2 in H2.
  remember (WorkflowSession.set_workflow_data _ _) as s2 eqn:F2 in H2.
  rewrite (bind_inr _ _ _ _ _ H2); clear H2; cbv beta.
  pose proof (read_user_data_eq s2 st2) as H3.
  remember (mkState _ _ _) as st3 eqn:E3 in H3.
  remember (WorkflowSession.set_user_data _ _) as s3 eqn:F3 in H3.
  rewrite (bind_inr _ _ _ _ _ H3); clear H3; cbv beta.
  pose proof (read_session_data_eq s3 st3) as H4.
  remember (mkState _ _ _) as st4 eqn:E4 in H4.
  remember (WorkflowSession.set_session_data _ _) as s4 eqn:F4 in H4.
  rewrite (bind_inr _ _ _ _ _ H4); clear H4; cbv beta.
  pose proof (read_session_state_eq s4 st4) as H5.
  remember (mkState _ _ _) as st5 eqn:E5 in H5.
  remember (WorkflowSession.set_session_state _ _) as s5 eqn:F5 in H5.
  rewrite (bind_inr _ _ _ _ _ H5); clear H5; cbv beta.
  pose proof (read_memory_eq s5 st5) as H6.
  remember (mkState _ _ _) as st6 eqn:E6 in H6.
  rewrite (bind_inr _ _ _ _ _ H6); clear H6; cbv beta.
  exists s5, st6. split; [reflexivity|].
  assert (persisted_runs s5 = persisted_runs session) as Hruns
    by (by rewrite F5, F4, F3, F2).
  rewrite Hruns in E6. clear Hruns.
  repeat split;
    rewrite ?E6, ?F5; cbn; rewrite ?E5, ?F4; cbn; rewrite ?E4, ?F3; cbn;
    rewrite ?E3, ?F2; cbn; rewrite ?E2; cbn; rewrite ?E1; cbn;
    try reflexivity.
  all: match goal with
       | |- context [from_option _ _ (_ <$> ?x)] => by destruct x
       end.
Qed.

Ltac load_facts session st :=
  destruct (from_workflow_session_spec session st)
    as (session' & st' & Hrun & Huuids & Hsid & Hwid & Huid & Hname & Hsname
        & Hswd & Hsud & Hssd & Hsss & Hwd & Hud & Hsd & Hss
        & Hs_sid & Hs_wid & Hs_uid & Hs_mem & Hstorage & Hcached
        & Hrid & Hrin & Hrresp & Hmem & Hlog).

(** C4.  The merge of a persisted map with a local one: a key of both
    with non-map values holds the local value; a key of the persisted map
    alone keeps its value; a key of the local map alone is inserted; a key
    of both with map values holds the merge of the two maps, and so on at
    every depth (a scalar of the local map wins wherever it sits, a value
    of the persisted map survives wherever the local maps have no entry
    for it).  [from_workflow_session] leaves the merged content in the
    persisted dictionary of the session object, and that dictionary is
    what the instance holds afterwards, for each of the four maps. *)
Theorem merge_precedence (persisted local : dict) :
  unique_keys (VDict local) = true ->
  let merged := merge_dictionaries persisted local in
  (forall k p l,
      dict_get persisted k = Some p -> dict_get local k = Some l ->
      is_dict p = false -> is_dict l = false ->
      dict_get merged k = Some l) /\
  (forall k, dict_get local k = None -> dict_get merged k = dict_get persisted k) /\
  (forall k l,
      dict_get persisted k = None -> dict_get local k = Some l ->
      dict_get merged k = Some l) /\
  (forall k p l,
      dict_get persisted k = Some (VDict p) -> dict_get local k = Some (VDict l) ->
      dict_get merged k = Some (VDict (merge_dictionaries p l))) /\
  (forall ks v,
      ks ≠ [] -> value_at (VDict local) ks = Some v -> is_dict v = false ->
      value_at (VDict merged) ks = Some v) /\
  (forall ks1 k ks2 d v,
      value_at (VDict local) ks1 = Some (VDict d) -> dict_get d k = None ->
      value_at (VDict persisted) (ks1 ++ k :: ks2) = Some v ->
      value_at (VDict merged) (ks1 ++ k :: ks2) = Some v) /\
  (forall (session : WorkflowSession.t) (st : State S),
      exists session' st',
        from_workflow_session session st = (inr session', st') /\
        (WorkflowSession.workflow_data session = Some persisted ->
         workflow_data (self st) = Some local ->
         WorkflowSession.workflow_data session' = Some merged /\
         workflow_data (self st') = Some merged) /\
        (WorkflowSession.user_data session = Some persisted ->
         user_data (self st) = Some local ->
         WorkflowSession.user_data session' = Some merged /\
         user_data (self st') = Some merged) /\
        (WorkflowSession.session_data session = Some persisted ->
         session_data (self st) = Some local ->
         WorkflowSession.session_data session' = Some merged /\
         session_data (self st') = Some merged) /\
        (WorkflowSession.session_state session = Some persisted ->
         session_state (self st) = Some local ->
         WorkflowSession.session_state session' = Some merged /\
         session_state (self st') = Some merged)).
Proof.
  intros Hu merged. pose proof (unique_keys_NoDup _ Hu) as Hnd.
  split_and!.
  - intros k p l Hp Hl _ Hdl. unfold merged.
    rewrite (merge_get_present _ _ _ _ Hnd Hl), Hp.
    by rewrite merge_value_scalar.
  - intros k Hl. by apply merge_get_absent.
  - intros k l Hp Hl. unfold merged.
    by rewrite (merge_get_present _ _ _ _ Hnd Hl), Hp.
  - intros k p l Hp Hl. unfold merged.
    by rewrite (merge_get_present _ _ _ _ Hnd Hl), Hp.
  - intros ks v Hks Hl Hv. by apply merge_value_at_local.
  - intros ks1 k ks2 d v Hl Hk Hp. by eapply merge_value_at_persisted.
  - intros session st. load_facts session st.
    exists session', st'. split; [done|].
    rewrite Hwd, Hud, Hsd, Hss, Hswd, Hsud, Hssd, Hsss.
    split_and!; by intros -> ->.
Qed.

(** C5.  When the persisted memory holds a history whose entries all
    deserialise, the history of the instance after the load is the
    persisted one, entry for entry and in the same order, whatever the
    instance held before. *)
Theorem history_replaced_wholesale
    (session : WorkflowSession.t) (st : State S)
    (m : dict) (entries : list value) (rs : list WorkflowRun.t) :
  WorkflowSession.memory session = Some m ->
  dict_get m "runs" = Some (VList entries) ->
  mapM WorkflowRun_kwargs entries = Some rs ->
  exists session' st',
    from_workflow_session session st = (inr session', st') /\
    WorkflowMemory.runs (memory (self st')) = rs /\
    length rs = length entries /\
    Forall2 (fun e r => WorkflowRun_kwargs e = Some r) entries rs /\
    log st' = log st.
Proof.
  intros Hm Hruns Hrs. load_facts session st.
  exists session', st'. split; [done|].
  unfold persisted_runs in Hmem, Hlog. rewrite Hm, Hruns in Hmem, Hlog.
  unfold load_runs in Hmem, Hlog. simpl in Hmem, Hlog.
  rewrite Hrs in Hmem, Hlog. rewrite Hmem, Hlog, app_nil_r.
  apply mapM_Some in Hrs.
  split_and!; [done| |done..].
  symmetry. by eapply Forall2_length.
Qed.

(** C6, as the code has it.  The history is loaded as a whole or not at
    all: when the persisted value under ["runs"] cannot be iterated or any
    one of its entries fails to deserialise, the load raises nothing, one
    warning is logged, and the history of the instance stays what it was;
    none of the other entries is loaded. *)
Theorem history_load_is_all_or_nothing
    (session : WorkflowSession.t) (st : State S) (m : dict) (runs : value) :
  WorkflowSession.memory session = Some m ->
  dict_get m "runs" = Some runs ->
  (iterate runs = None \/
   exists entries, iterate runs = Some entries /\
     Exists (fun e => WorkflowRun_kwargs e = None) entries) ->
  exists session' st',
    from_workflow_session session st = (inr session', st') /\
    memory (self st') = memory (self st) /\
    log st' = log st ++ [LoggerWarning "Failed to load WorkflowMemory"].
Proof.
  intros Hm Hruns Hbad. load_facts session st.
  exists session', st'. split; [done|].
  unfold persisted_runs in Hmem, Hlog. rewrite Hm, Hruns in Hmem, Hlog.
  assert (load_runs runs = None) as Hload.
  { unfold load_runs. destruct Hbad as [->|(entries & -> & Hex)]; [done|].
    by apply mapM_None. }
  by rewrite Hload in Hmem, Hlog.
Qed.

Lemma names_adopted_kept (session : WorkflowSession.t) (st : State S) :
  exists session' st',
    from_workflow_session session st = (inr session', st') /\
    (name (self st) ≠ VNone -> name (self st') = name (self st)).
Proof.
  load_facts session st. exists session', st'. split; [done|].
  rewrite Hname. intros Hset.
  destruct (WorkflowSession.workflow_data session); [|done].
  by destruct (name (self st)).
Qed.

(** C9.  Loading a persisted session adopts the persisted name (session
    name) when the instance has none, and keeps the one of the instance
    otherwise.  The adopted value is the one the persisted dictionary held
    before the merge: the merged dictionary may hold the local entry under
    the same key. *)
Theorem names_adopted_before_merge (session : WorkflowSession.t) (st : State S) :
  exists session' st',
    from_workflow_session session st = (inr session', st') /\
    (forall p v,
        name (self st) = VNone ->
        WorkflowSession.workflow_data session = Some p ->
        dict_get p "name" = Some v ->
        name (self st') = v) /\
    (forall p v,
        session_name (self st) = VNone ->
        WorkflowSession.session_data session = Some p ->
        dict_get p "session_name" = Some v ->
        session_name (self st') = v) /\
    (name (self st) ≠ VNone -> name (self st') = name (self st)) /\
    (session_name (self st) ≠ VNone ->
     session_name (self st') = session_name (self st)) /\
    (forall p l vl,
        WorkflowSession.workflow_data session = Some p ->
        workflow_data (self st) = Some l ->
        unique_keys (VDict l) = true ->
        dict_get l "name" = Some vl -> is_dict vl = false ->
        WorkflowSession.workflow_data session' = Some (merge_dictionaries p l) /\
        dict_get (merge_dictionaries p l) "name" = Some vl) /\
    (forall p l vl,
        WorkflowSession.session_data session = Some p ->
        session_data (self st) = Some l ->
        unique_keys (VDict l) = true ->
        dict_get l "session_name" = Some vl -> is_dict vl = false ->
        WorkflowSession.session_data session' = Some (merge_dictionaries p l) /\
        dict_get (merge_dictionaries p l) "session_name" = Some vl).
Proof.
  load_facts session st. exists session', st'. split; [done|].
  rewrite Hname, Hsname, Hswd, Hssd.
  split_and!.
  - intros p v -> -> Hv. unfold dict_mem, py_get. by rewrite Hv.
  - intros p v -> -> Hv. unfold dict_mem, py_get. by rewrite Hv.
  - intros Hset. destruct (WorkflowSession.workflow_data session); [|done].
    by destruct (name (self st)).
  - intros Hset. destruct (WorkflowSession.session_data session); [|done].
    by destruct (session_name (self st)).
  - intros p l vl -> -> Hu Hl Hvl. split; [done|].
    rewrite (merge_get_present _ _ _ _ (unique_keys_NoDup _ Hu) Hl).
    destruct (dict_get p "name"); [|done]. by rewrite merge_value_scalar.
  - intros p l vl -> -> Hu Hl Hvl. split; [done|].
    rewrite (merge_get_present _ _ _ _ (unique_keys_NoDup _ Hu) Hl).
    destruct (dict_get p "session_name"); [|done]. by rewrite merge_value_scalar.
Qed.

(** ** Writing the session *)

Lemma get_workflow_data_spec (st : State S) :
  exists d wd',
    get_workflow_data st =
    (inr d, mkState (set_workflow_data wd' (self st)) (log st) (uuids st)).
Proof.
  destruct st as [w lg n]. unfold get_workflow_data. run.
  destruct w as [? ? [d|] ? ? ? ? ? ? ? ? ? ? ? ?]; simpl.
  - destruct (negb _); run; eexists _, _; reflexivity.
  - by eexists _, None.
Qed.

Lemma get_session_data_spec (st : State S) :
  exists d sd',
    get_session_data st =
    (inr d, mkState (set_session_data sd' (self st)) (log st) (uuids st)).
Proof.
  destruct st as [w lg n]. unfold get_session_data. run.
  destruct w as [? ? ? ? ? ? ? [d|] ? ? ? ? ? ? ?]; simpl.
  - destruct (negb _); run; eexists _, _; reflexivity.
  - by eexists _, None.
Qed.

Lemma get_workflow_session_spec (st : State S) :
  exists session wd' sd',
    get_workflow_session st =
    (inr session,
     mkState (set_session_data sd' (set_workflow_data wd' (self st)))
       (log st) (uuids st)) /\
    WorkflowSession.session_id session = session_id (self st) /\
    WorkflowSession.workflow_id session = workflow_id (self st) /\
    WorkflowSession.user_id session = user_id (self st) /\
    WorkflowSession.memory session = Some (to_dict (memory (self st))) /\
    WorkflowSession.user_data session = user_data (self st) /\
    WorkflowSession.session_state session = session_state (self st) /\
    is_Some (WorkflowSession.workflow_data session) /\
    is_Some (WorkflowSession.session_data session).
Proof.
  unfold get_workflow_session.
  destruct (get_workflow_data_spec st) as (d1 & wd' & H1).
  remember (mkState _ _ _) as st1 eqn:E1 in H1.
  destruct (get_session_data_spec st1) as (d2 & sd' & H2).
  eexists _, wd', sd'. split.
  - unfold bind at 1. unfold get_self at 1.
    rewrite (bind_inr _ _ _ _ _ H1). cbv beta.
    rewrite (bind_inr _ _ _ _ _ H2). cbv beta.
    unfold ret. rewrite E1. reflexivity.
  - simpl. split_and!; try done; by eexists.
Qed.

Lemma write_to_storage_None (st : State S) :
  storage (self st) = None ->
  write_to_storage st = (inr (_workflow_session (self st)), st).
Proof.
  destruct st as [w lg n]. unfold write_to_storage. run. by intros ->.
Qed.

Lemma write_to_storage_Some (st : State S) db :
  storage (self st) = Some db ->
  exists session wd' sd',
    write_to_storage st =
    (inr (WorkflowStorage.upsert db session).2,
     mkState
       (set__workflow_session (WorkflowStorage.upsert db session).2
          (set_storage (Some (WorkflowStorage.upsert db session).1)
             (set_session_data sd' (set_workflow_data wd' (self st)))))
       (log st ++ [StorageUpsert session]) (uuids st)) /\
    WorkflowSession.session_id session = session_id (self st) /\
    WorkflowSession.workflow_id session = workflow_id (self st) /\
    WorkflowSession.memory session = Some (to_dict (memory (self st))).
Proof.
  intros Hdb.
  destruct (get_workflow_session_spec st)
    as (session & wd' & sd' & Hs & Hsid & Hwid & _ & Hmem & _).
  exists session, wd', sd'. split; [|done].
  unfold write_to_storage. unfold bind at 1. unfold get_self at 1.
  rewrite Hdb. unfold bind at 1. unfold bind at 1.
  rewrite Hs. destruct (WorkflowStorage.upsert db session) as [db' echoed].
  by run.
Qed.

Lemma add_run_eq (st : State S) :
  add_run st =
  (inr tt,
   mkState
     (set_memory (WorkflowMemory.add_run (run_record st) (memory (self st)))
        (self st))
     (log st ++ [MemoryAddRun (run_record st)]) (uuids st)).
Proof. by destruct st. Qed.

(** ** The streaming generator *)

Lemma string_app_nil_r (s : string) : s +:+ "" = s.
Proof.
  induction s as [|c s IH]; [done|].
  change (String c (s +:+ "") = String c s). by rewrite IH.
Qed.

Lemma string_app_assoc (a b c : string) : (a +:+ b) +:+ c = a +:+ b +:+ c.
Proof.
  induction a as [|x a IH]; [done|].
  change (String x ((a +:+ b) +:+ c) = String x (a +:+ b +:+ c)). by rewrite IH.
Qed.

Lemma text_of_stamp_item (w : Workflow S) it : text_of (stamp_item w it) = text_of it.
Proof. by destruct it. Qed.

(** A [next()] that finds a fragment: the fragment is stamped, its text is
    appended to the content of the outer response, and it is yielded. *)
Lemma next_yield it rest (st : State S) acc :
  RunResponse.content (run_response (self st)) = VStr acc ->
  result_generator_next (mkGenerator (it :: rest) false) st =
  (inr (Some (stamp_item (self st) it), mkGenerator rest false),
   mkState
     (set_run_response
        (RunResponse.set_content (VStr (acc +:+ text_of it))
           (run_response (self st)))
        (self st))
     (log st ++ item_log (self st) it) (uuids st)).
Proof.
  destruct st as [w lg n], w; simpl.
  destruct run_response0 as [c rid sid wid]; simpl. intros ->.
  destruct it as [[[] ? ? ?]|v]; unfold result_generator_next; run;
    rewrite ?string_app_nil_r, <- ?app_assoc; reflexivity.
Qed.


(** The finalisation: the run is added to the memory, then the session
    is written. *)
Lemma finalize_spec (st : State S) :
  exists r st' evs,
    (add_run >> write_to_storage) st = (inr r, st') /\
    uuids st' = uuids st /\
    memory (self st') =
      WorkflowMemory.add_run (run_record st) (memory (self st)) /\
    run_response (self st') = run_response (self st) /\
    run_input (self st') = run_input (self st) /\
    run_id (self st') = run_id (self st) /\
    session_id (self st') = session_id (self st) /\
    workflow_id (self st') = workflow_id (self st) /\
    log st' = log st ++ MemoryAddRun (run_record st) :: evs /\
    match storage (self st) with
    | None => evs = []
    | Some db =>
        exists session,
          evs = [StorageUpsert session] /\
          WorkflowSession.session_id session = session_id (self st) /\
          WorkflowSession.workflow_id session = workflow_id (self st) /\
          WorkflowSession.memory session =
            Some (to_dict (WorkflowMemory.add_run (run_record st) (memory (self st)))) /\
          storage (self st') = Some (WorkflowStorage.upsert db session).1 /\
          _workflow_session (self st') = (WorkflowStorage.upsert db session).2
    end.
Proof.
  rewrite (bind_inr _ _ _ _ _ (add_run_eq st)).
  remember (mkState _ _ _) as st1 eqn:E1.
  destruct (storage (self st)) as [db|] eqn:Hdb.
  - destruct (write_to_storage_Some st1 db) as (session & wd' & sd' & Hw & Hsid & Hwid & Hmem).
    { by rewrite E1. }
    rewrite Hw. eexists _, _, [StorageUpsert session].
    split; [reflexivity|]. rewrite E1 in *. simpl in *.
    rewrite <- app_assoc. split_and!; try done.
    exists session. by split_and!.
  - rewrite write_to_storage_None by by rewrite E1.
    eexists _, _, []. split; [reflexivity|]. by rewrite E1.
Qed.

Lemma stream_log_set_run_response x (w : Workflow S) its :
  stream_log (set_run_response x w) its = stream_log w its.
Proof.
  unfold stream_log. induction its as [|it its IH]; [done|].
  rewrite !bind_cons, IH. by destruct it.
Qed.

Lemma streamed_nil (st : State S) acc :
  RunResponse.content (run_response (self st)) = VStr acc ->
  streamed st acc [] = st.
Proof.
  destruct st as [w lg n], w. destruct run_response0. simpl. intros ->.
  unfold streamed. simpl. by rewrite string_app_nil_r, app_nil_r.
Qed.

Lemma streamed_cons (st : State S) acc it its :
  streamed (streamed st acc [it]) (acc +:+ text_of it) its =
  streamed st acc (it :: its).
Proof.
  unfold streamed. simpl.
  rewrite stream_log_set_run_response, string_app_nil_r, string_app_assoc.
  unfold stream_log. simpl. rewrite app_nil_r, <- app_assoc.
  by destruct st as [w lg n], w.
Qed.

Lemma next_yield_streamed it rest (st : State S) acc :
  RunResponse.content (run_response (self st)) = VStr acc ->
  result_generator_next (mkGenerator (it :: rest) false) st =
  (inr (Some (stamp_item (self st) it), mkGenerator rest false),
   streamed st acc [it]).
Proof.
  intros Hc. rewrite (next_yield _ _ _ _ Hc). unfold streamed, stream_log.
  simpl. by rewrite string_app_nil_r, app_nil_r.
Qed.

Lemma streamed_content (st : State S) acc its :
  RunResponse.content (run_response (self (streamed st acc its))) =
  VStr (acc +:+ accumulated its).
Proof. reflexivity. Qed.

(** Pulling no more fragments than the source holds: the fragments come out
    stamped, in order, and the generator stays suspended. *)
Lemma pull_prefix (items : list item) :
  forall n (st : State S) acc,
    RunResponse.content (run_response (self st)) = VStr acc ->
    n <= length items ->
    pull n (mkGenerator items false) st =
    (inr (stamp_item (self st) <$> take n items,
          mkGenerator (drop n items) false),
     streamed st acc (take n items)).
Proof.
  induction items as [|it rest IH]; intros n st acc Hc Hn.
  - assert (n = 0) as -> by (simpl in Hn; lia).
    simpl. unfold ret. by rewrite streamed_nil.
  - destruct n as [|n]; [simpl; unfold ret; by rewrite streamed_nil|].
    simpl in Hn. cbn [pull take drop fmap list_fmap].
    rewrite (bind_inr _ _ _ _ _ (next_yield_streamed it rest st acc Hc)).
    rewrite (bind_inr _ _ _ _ _
               (IH n (streamed st acc [it]) (acc +:+ text_of it)
                  ltac:(by rewrite streamed_content; simpl;
                          rewrite string_app_nil_r) ltac:(lia))).
    unfold ret. by rewrite streamed_cons.
Qed.

(** The [next()] that finds the source exhausted runs the finalisation. *)
Lemma next_exhausted (st : State S) r st' :
  (add_run >> write_to_storage) st = (inr r, st') ->
  result_generator_next (mkGenerator [] false) st =
  (inr (None, mkGenerator [] true), st').
Proof.
  unfold result_generator_next. simpl. unfold bind.
  destruct (add_run st) as [[e|[]] s1]; [done|].
  destruct (write_to_storage s1) as [[e|r'] s2]; [done|].
  by intros [= _ ->].
Qed.

(** Pulling past the end: every fragment comes out, the finalisation has
    run, and the generator is closed. *)
Lemma pull_drain (items : list item) :
  forall n (st : State S) acc r st',
    RunResponse.content (run_response (self st)) = VStr acc ->
    length items < n ->
    (add_run >> write_to_storage) (streamed st acc items) = (inr r, st') ->
    pull n (mkGenerator items false) st =
    (inr (stamp_item (self st) <$> items, mkGenerator [] true), st').
Proof.
  induction items as [|it rest IH]; intros n st acc r st' Hc Hn Hfin;
    (destruct n as [|n]; [simpl in Hn; lia|]); simpl in Hn.
  - rewrite streamed_nil in Hfin by done. cbn [pull].
    by rewrite (bind_inr _ _ _ _ _ (next_exhausted _ _ _ Hfin)).
  - cbn [pull fmap list_fmap].
    rewrite (bind_inr _ _ _ _ _ (next_yield_streamed it rest st acc Hc)).
    rewrite <- streamed_cons in Hfin.
    rewrite (bind_inr _ _ _ _ _
               (IH n (streamed st acc [it]) (acc +:+ text_of it) r st'
                  ltac:(by rewrite streamed_content; simpl;
                          rewrite string_app_nil_r) ltac:(lia) Hfin)).
    reflexivity.
Qed.

(** ** Reading the session *)

Lemma read_from_storage_spec (st : State S) :
  exists st1,
    read_from_storage st = (inr (_workflow_session (self st1)), st1) /\
    uuids st1 = uuids st /\
    log st1 = log st ++ read_log (self st) /\
    run_id (self st1) = run_id (self st) /\
    run_input (self st1) = run_input (self st) /\
    run_response (self st1) = run_response (self st) /\
    session_id (self st1) = session_id (self st) /\
    match storage (self st), session_id (self st) with
    | Some db, Some sid =>
        storage (self st1) = Some (WorkflowStorage.read db sid).1 /\
        match (WorkflowStorage.read db sid).2 with
        | Some session =>
            is_Some (_workflow_session (self st1)) /\
            workflow_id (self st1) =
              adopt (workflow_id (self st)) (WorkflowSession.workflow_id session)
        | None =>
            _workflow_session (self st1) = None /\
            workflow_id (self st1) = workflow_id (self st) /\
            memory (self st1) = memory (self st)
        end
    | _, _ => st1 = st
    end.
Proof.
  destruct st as [w lg n]. unfold read_from_storage, read_log. simpl.
  unfold bind at 1. unfold get_self at 1. simpl.
  destruct (storage w) as [db|] eqn:Hdb;
    [destruct (session_id w) as [sid|] eqn:Hcur|].
  - destruct (WorkflowStorage.read db sid) as [db' [session|]] eqn:Hread; run.
    + match goal with
      | |- context [from_workflow_session ?s ?x] => load_facts s x
      end.
      rewrite Hrun. simpl in *.
      exists (mkState (set__workflow_session (Some session') (self st'))
                (log st') (uuids st')).
      split; [reflexivity|]. simpl.
      rewrite Hlog, <- app_assoc, Hsid, Hcur. simpl.
      by split_and!.
    + match goal with
      | |- exists st1, (_, ?x) = _ /\ _ => exists x
      end.
      split; [reflexivity|]. simpl.
      by destruct w; simpl in *; subst.
  - run. exists (mkState w lg n). split; [reflexivity|]. simpl.
    by rewrite app_nil_r.
  - run. exists (mkState w lg n). split; [reflexivity|]. simpl.
    by rewrite app_nil_r.
Qed.

(** ** The run wrapper *)

Lemma run_workflow_begin_spec (args : list value) (kwargs : dict) (st : State S) :
  exists st1,
    run_workflow_begin args kwargs st = (inr tt, st1) /\
    uuids st1 = Datatypes.S (uuids st) /\
    log st1 = log st ++ read_log (self st) /\
    run_id (self st1) = Some (uuid4 (uuids st)) /\
    run_input (self st1) =
      Some (VDict [("args", VTuple args); ("kwargs", VDict kwargs)]) /\
    run_response (self st1) =
      RunResponse.mk VNone (Some (uuid4 (uuids st)))
        (session_id (self st)) (workflow_id (self st)) /\
    session_id (self st1) = session_id (self st) /\
    match storage (self st), session_id (self st) with
    | Some db, Some sid =>
        storage (self st1) = Some (WorkflowStorage.read db sid).1 /\
        match (WorkflowStorage.read db sid).2 with
        | Some session =>
            is_Some (_workflow_session (self st1)) /\
            workflow_id (self st1) =
              adopt (workflow_id (self st)) (WorkflowSession.workflow_id session)
        | None =>
            _workflow_session (self st1) = None /\
            workflow_id (self st1) = workflow_id (self st) /\
            memory (self st1) = memory (self st)
        end
    | _, _ =>
        storage (self st1) = storage (self st) /\
        _workflow_session (self st1) = _workflow_session (self st) /\
        workflow_id (self st1) = workflow_id (self st) /\
        memory (self st1) = memory (self st)
    end.
Proof.
  unfold run_workflow_begin. run.
  match goal with
  | |- context [read_from_storage ?x] =>
      destruct (read_from_storage_spec x)
        as (st1 & Hr & Hu & Hl & Hrid & Hrin & Hrr & Hsid & Hst)
  end.
  rewrite Hr. exists st1. split; [done|]. simpl in *.
  split_and!; try done.
  destruct (storage (self st)) as [db|] eqn:Es;
    [|rewrite Hst; simpl; by rewrite Es].
  destruct (session_id (self st)) as [sid|] eqn:Ei;
    [done|rewrite Hst; simpl; by rewrite Es].
Qed.

Lemma run_workflow_unfold (args : list value) (kwargs : dict) (st st1 : State S) :
  run_workflow_begin args kwargs st = (inr tt, st1) ->
  run_workflow args kwargs st =
  run_workflow_finish (_subclass_run (self st1) args kwargs)
    (mkState (self st1) (log st1 ++ [SubclassRun args kwargs]) (uuids st1)).
Proof.
  intros Hb. unfold run_workflow. rewrite (bind_inr _ _ _ _ _ Hb). by run.
Qed.


Lemma filter_stream_log_add_run (w : Workflow S) its :
  List.filter is_add_run (stream_log w its) = [].
Proof.
  unfold stream_log. induction its as [|[r|v] its IH]; [done|..];
    rewrite bind_cons, List.filter_app, IH; done.
Qed.

Lemma filter_stream_log_yield (w : Workflow S) its :
  List.filter is_yield (stream_log w its) = Yield <$> (stamp_item w <$> its).
Proof.
  unfold stream_log. induction its as [|[r|v] its IH]; [done|..];
    rewrite bind_cons, List.filter_app, IH; done.
Qed.

Lemma filter_read_log (w : Workflow S) :
  List.filter is_upsert (read_log w) = [] /\
  List.filter is_add_run (read_log w) = [] /\
  List.filter is_yield (read_log w) = [].
Proof.
  unfold read_log, load_warnings.
  destruct (storage w) as [db|]; [|done].
  destruct (session_id w) as [sid|]; [|done].
  destruct (WorkflowStorage.read db sid).2 as [session|]; [|done].
  destruct (persisted_runs session) as [runs|]; [|done].
  by destruct (load_runs runs).
Qed.

Lemma finalize_ret {A} (x : A) (st : State S) r st' :
  (add_run >> write_to_storage) st = (inr r, st') ->
  (add_run >> write_to_storage >> ret x) st = (inr x, st').
Proof.
  unfold bind, ret.
  destruct (add_run st) as [[e|[]] s1]; [done|].
  destruct (write_to_storage s1) as [[e|r'] s2]; [done|].
  by intros [= _ ->].
Qed.

Lemma run_workflow_finish_iterator items (st : State S) :
  run_workflow_finish (ResultIterator items) st =
  (inr (ReturnGenerator (mkGenerator items false)),
   mkState
     (set_run_response
        (RunResponse.set_content (VStr "") (run_response (self st))) (self st))
     (log st) (uuids st)).
Proof. reflexivity. Qed.

(** Every [pull] on the generator of a run returns, whatever the number of
    [next()] calls: [pull_prefix] and [pull_drain] put together. *)
Lemma pull_total (items : list item) n (st : State S) acc :
  RunResponse.content (run_response (self st)) = VStr acc ->
  exists g' st',
    pull n (mkGenerator items false) st =
      (inr (stamp_item (self st) <$> take n items, g'), st') /\
    run_id (self st') = run_id (self st) /\
    session_id (self st') = session_id (self st) /\
    workflow_id (self st') = workflow_id (self st).
Proof.
  intros Hc. destruct (decide (n <= length items)) as [Hn|Hn].
  - rewrite (pull_prefix items n st acc Hc Hn). by eexists _, _.
  - destruct (finalize_spec (streamed st acc items))
      as (r & st' & evs & Hf & _ & _ & _ & _ & Hrid & Hsid & Hwid & _).
    rewrite (pull_drain items n st acc r st' Hc ltac:(lia) Hf).
    rewrite take_ge by lia. by eexists _, _.
Qed.

Lemma run_workflow_finish_response r (st : State S) :
  exists st',
    run_workflow_finish (ResultResponse r) st =
      (inr (ReturnResponse (stamp (self st) r)), st') /\
    run_id (self st') = run_id (self st) /\
    session_id (self st') = session_id (self st) /\
    workflow_id (self st') = workflow_id (self st) /\
    RunResponse.content (run_response (self st')) =
      match RunResponse.content r with
      | VStr s => VStr s
      | _ => RunResponse.content (run_response (self st))
      end.
Proof.
  unfold run_workflow_finish. unfold bind at 1. unfold get_self at 1.
  assert (forall stc : State S,
    run_id (self stc) = run_id (self st) ->
    session_id (self stc) = session_id (self st) ->
    workflow_id (self stc) = workflow_id (self st) ->
    exists st',
      (add_run >> write_to_storage >> ret (ReturnResponse (stamp (self st) r))) stc =
        (inr (ReturnResponse (stamp (self st) r)), st') /\
      run_id (self st') = run_id (self st) /\
      session_id (self st') = session_id (self st) /\
      workflow_id (self st') = workflow_id (self st) /\
      RunResponse.content (run_response (self st')) =
        RunResponse.content (run_response (self stc))) as Hfin.
  { intros stc H1 H2 H3.
    destruct (finalize_spec stc)
      as (x & st' & evs & Hf & _ & _ & Hrr & _ & Hrid & Hsid & Hwid & _).
    exists st'. rewrite (finalize_ret _ _ _ _ Hf).
    split_and!; congruence. }
  destruct r as [c rid sid wid]. simpl.
  destruct c; simpl;
    (erewrite bind_inr by reflexivity); cbv beta;
    match goal with
    | |- context [bind add_run _ ?x] =>
        destruct (Hfin x) as (st' & Hrun & ? & ? & ? & Hc); [done..|]
    end; rewrite Hrun; exists st'; by split_and!.
Qed.

(** C7.  The response a run returns, and every response fragment a
    streaming run yields, carries the run id drawn for this run and the
    session id and workflow id of the instance, whatever the run function
    had put there; the content is left as it was. *)
Theorem responses_carry_run_identity
    (args : list value) (kwargs : dict) (st : State S) :
  let st1 := (run_workflow_begin args kwargs st).2 in
  (forall r,
      _subclass_run (self st1) args kwargs = ResultResponse r ->
      exists r' st',
        run_workflow args kwargs st = (inr (ReturnResponse r'), st') /\
        RunResponse.run_id r' = Some (uuid4 (uuids st)) /\
        RunResponse.run_id r' = run_id (self st') /\
        RunResponse.session_id r' = session_id (self st') /\
        RunResponse.workflow_id r' = workflow_id (self st') /\
        RunResponse.content r' = RunResponse.content r) /\
  (forall items,
      _subclass_run (self st1) args kwargs = ResultIterator items ->
      exists g st2,
        run_workflow args kwargs st = (inr (ReturnGenerator g), st2) /\
        forall n,
        exists its g' st3,
          pull n g st2 = (inr (its, g'), st3) /\
          length its = min n (length items) /\
          Forall2
            (fun it it' =>
               match it with
               | ItemResponse r =>
                   exists r',
                     it' = ItemResponse r' /\
                     RunResponse.run_id r' = Some (uuid4 (uuids st)) /\
                     RunResponse.run_id r' = run_id (self st3) /\
                     RunResponse.session_id r' = session_id (self st3) /\
                     RunResponse.workflow_id r' = workflow_id (self st3) /\
                     RunResponse.content r' = RunResponse.content r
               | ItemOther v => it' = ItemOther v
               end)
            (take n items) its).
Proof.
  intros st1.
  destruct (run_workflow_begin_spec args kwargs st)
    as (st1' & Hb & Hu & Hl & Hrid & Hrin & Hrr & Hsid & Hst).
  assert (st1 = st1') as -> by (unfold st1; by rewrite Hb).
  rewrite (run_workflow_unfold _ _ _ _ Hb). split.
  - intros r ->.
    match goal with
    | |- context [run_workflow_finish _ ?x] =>
        destruct (run_workflow_finish_response r x)
          as (st' & Hrun & Hrid' & Hsid' & Hwid' & _)
    end.
    rewrite Hrun. eexists _, st'. split; [reflexivity|].
    simpl in *. rewrite Hrid', Hsid', Hwid'. by split_and!.
  - intros items ->. rewrite run_workflow_finish_iterator.
    eexists _, _. split; [reflexivity|]. intros n.
    match goal with
    | |- context [pull n _ ?x] =>
        destruct (pull_total items n x "" eq_refl)
          as (g' & st3 & Hp & Hrid' & Hsid' & Hwid')
    end.
    rewrite Hp. eexists _, g', st3. split; [reflexivity|].
    split; [by rewrite length_fmap, length_take|].
    simpl in *. rewrite Hrid', Hsid', Hwid'.
    apply Forall2_fmap_r, Forall_Forall2_diag, Forall_true.
    intros [r|v]; [|done]. eexists. split; [reflexivity|]. by split_and!.
Qed.

Lemma accumulated_stamp_item (w : Workflow S) (its : list item) :
  accumulated (stamp_item w <$> its) = accumulated its.
Proof.
  induction its as [|it its IH]; [done|].
  rewrite fmap_cons.
  change (text_of (stamp_item w it) +:+ accumulated (stamp_item w <$> its) =
          text_of it +:+ accumulated its).
  by rewrite IH, text_of_stamp_item.
Qed.

(** C1.  When the generator of a streaming run is pulled past its last
    fragment, every fragment has been forwarded (stamped, otherwise as it
    was), the content of the outer response is the concatenation, in order,
    of the string contents of the response fragments, and one run record,
    holding the captured arguments and the outer response, has been appended
    to the history; in the log that append comes once, after every yield. *)
Theorem streaming_content_is_concatenation
    (args : list value) (kwargs : dict) (st : State S)
    (items : list item) (n : nat) :
  _subclass_run (self (run_workflow_begin args kwargs st).2) args kwargs =
    ResultIterator items ->
  length items < n ->
  exists g st1 its g' st2 post,
    run_workflow args kwargs st = (inr (ReturnGenerator g), st1) /\
    pull n g st1 = (inr (its, g'), st2) /\
    closed g' = true /\
    its = stamp_item (self st1) <$> items /\
    RunResponse.content (run_response (self st2)) = VStr (accumulated its) /\
    accumulated its = accumulated items /\
    WorkflowMemory.runs (memory (self st2)) =
      WorkflowMemory.runs (memory (self st1)) ++
      [WorkflowRun.mk
         (Some (VDict [("args", VTuple args); ("kwargs", VDict kwargs)]))
         (Some (run_response (self st2)))] /\
    log st2 =
      log st1 ++ stream_log (self st1) items ++
      MemoryAddRun
        (WorkflowRun.mk
           (Some (VDict [("args", VTuple args); ("kwargs", VDict kwargs)]))
           (Some (run_response (self st2)))) :: post /\
    List.filter is_yield (stream_log (self st1) items) = Yield <$> its /\
    List.filter is_add_run (stream_log (self st1) items) = [] /\
    List.filter is_yield post = [] /\
    List.filter is_add_run post = [].
Proof.
  intros Hres Hn.
  destruct (run_workflow_begin_spec args kwargs st)
    as (sb & Hb & Hu & Hl & Hrid & Hrin & Hrr & Hsid & Hst).
  rewrite Hb in Hres. simpl in Hres.
  rewrite (run_workflow_unfold _ _ _ _ Hb), Hres, run_workflow_finish_iterator.
  simpl. set (st1 := mkState _ _ _).
  destruct (finalize_spec (streamed st1 "" items))
    as (r & st2 & post & Hf & _ & Hmem & Hresp & Hin & _ & _ & _ & Hlog & Hpost).
  pose proof (pull_drain items n st1 "" r st2 eq_refl Hn Hf) as Hp.
  exists (mkGenerator items false), st1, (stamp_item (self st1) <$> items),
    (mkGenerator [] true), st2, post.
  assert (run_record (streamed st1 "" items) =
          WorkflowRun.mk
            (Some (VDict [("args", VTuple args); ("kwargs", VDict kwargs)]))
            (Some (run_response (self st2)))) as Hrec.
  { unfold run_record. rewrite Hresp. simpl. by rewrite Hrin. }
  rewrite Hrec in Hmem, Hlog.
  split_and!; try done.
  - rewrite Hresp. simpl. by rewrite accumulated_stamp_item.
  - apply accumulated_stamp_item.
  - by rewrite Hmem.
  - rewrite Hlog. simpl. by rewrite <- app_assoc.
  - apply filter_stream_log_yield.
  - apply filter_stream_log_add_run.
  - simpl in Hpost. destruct (storage (self sb)); [|by subst].
    by destruct Hpost as (session & -> & _).
  - simpl in Hpost. destruct (storage (self sb)); [|by subst].
    by destruct Hpost as (session & -> & _).
Qed.



(** ** Renaming a session *)

Lemma rename_session_eq (sid new_name : string) (st : State S) :
  rename_session sid new_name st =
  match storage (self st) with
  | None =>
      (inl (AttributeError "'NoneType' object has no attribute 'read'"), st)
  | Some db =>
      let st1 :=
        mkState (set_storage (Some (WorkflowStorage.read db sid).1) (self st))
          (log st ++ [StorageRead sid]) (uuids st) in
      match (WorkflowStorage.read db sid).2 with
      | None => (inl (Exception ("WorkflowSession not found: " +:+ sid)), st1)
      | Some record =>
          match WorkflowSession.session_data record with
          | None =>
              (inl (TypeError "'NoneType' object does not support item assignment"),
               st1)
          | Some d =>
              let renamed :=
                WorkflowSession.set_session_data
                  (Some (dict_set d "session_name" (VStr new_name))) record in
              (inr tt,
               mkState
                 (set_storage
                    (Some (WorkflowStorage.upsert (WorkflowStorage.read db sid).1
                             renamed).1)
                    (self st1))
                 (log st1 ++ [StorageUpsert renamed]) (uuids st1))
          end
      end
  end.
Proof.
  unfold rename_session. run.
  destruct (storage (self st)) as [db|]; [|done].
  destruct (WorkflowStorage.read db sid) as [db1 [record|]]; simpl; [|done].
  destruct (WorkflowSession.session_data record) as [d|]; [|done].
  by destruct (WorkflowStorage.upsert db1 _) as [db2 echoed].
Qed.


(** C10.  [rename_session] checks neither that a storage is configured nor
    that the record carries a [session_data] dictionary: without a storage
    it raises an [AttributeError] before any call, and on a record whose
    [session_data] is [None] it raises a [TypeError] after the read and
    before the upsert.  [read_from_storage], [write_to_storage] and
    [load_session] return normally, and leave the state alone, when no
    storage is configured.  Under the two preconditions [rename_session]
    ends with the "not found" exception or normally. *)
Theorem rename_session_is_unguarded (sid new_name : string) (st : State S) :
  (storage (self st) = None ->
   rename_session sid new_name st =
     (inl (AttributeError "'NoneType' object has no attribute 'read'"), st) /\
   read_from_storage st = (inr (_workflow_session (self st)), st) /\
   write_to_storage st = (inr (_workflow_session (self st)), st) /\
   forall force, exists r, load_session force st = (inr r, st)) /\
  (forall db record,
      storage (self st) = Some db ->
      (WorkflowStorage.read db sid).2 = Some record ->
      WorkflowSession.session_data record = None ->
      exists st',
        rename_session sid new_name st =
          (inl (TypeError "'NoneType' object does not support item assignment"), st') /\
        log st' = log st ++ [StorageRead sid]) /\
  (forall db,
      storage (self st) = Some db ->
      (forall record,
          (WorkflowStorage.read db sid).2 = Some record ->
          is_Some (WorkflowSession.session_data record)) ->
      exists st',
        rename_session sid new_name st = (inr tt, st') \/
        rename_session sid new_name st =
          (inl (Exception ("WorkflowSession not found: " +:+ sid)), st')).
Proof.
  rewrite rename_session_eq. split_and!.
  - intros Hdb. rewrite Hdb. split_and!; [done| | |].
    + destruct (read_from_storage_spec st)
        as (st1 & Hr & _ & _ & _ & _ & _ & _ & Hst).
      rewrite Hdb in Hst. by subst.
    + by apply write_to_storage_None.
    + intros force. unfold load_session. unfold bind at 1. unfold get_self at 1.
      rewrite Hdb.
      destruct (_workflow_session (self st)) as [ws|];
        [destruct force;
         [|destruct (session_id (self st)); [destruct (bool_decide _)|]]|];
        run; by eexists.
  - intros db record -> Hrec Hd. simpl. rewrite Hrec, Hd. by eexists.
  - intros db -> Hok. simpl.
    destruct (WorkflowStorage.read db sid).2 as [record|].
    + destruct (Hok record eq_refl) as [d ->]. eexists. by left.
    + eexists. by right.
Qed.

(** ** Construction *)

Lemma init_name_is_set (class_name : string) (w : Workflow S) :
  is_none (name (init_name class_name w)) = false.
Proof.
  unfold init_name. destruct (truthy (name w)) eqn:E; simpl; [|done].
  by destruct (name w).
Qed.

(** A constructed instance has a name, so the persisted name is never the
    one adopted for it. *)
Lemma constructed_name_is_kept
    (class_name : string) (session : WorkflowSession.t) (st : State S) :
  let st0 := mkState (init_name class_name (self st)) (log st) (uuids st) in
  name (self (from_workflow_session session st0).2) = name (self st0).
Proof.
  intros st0.
  destruct (names_adopted_kept session st0) as (session' & st' & Hrun & Hkept).
  rewrite Hrun. apply Hkept. intros Hnone.
  pose proof (init_name_is_set class_name (self st)) as Hset.
  change (name (init_name class_name (self st)) = VNone) in Hnone.
  by rewrite Hnone in Hset.
Qed.

(** * Further properties of the methods *)

(** ** The dictionaries handed to the storage *)

Lemma with_name_get (k : string) (n : value) (d : dict) :
  n ≠ VNone -> dict_get (with_name k n d) k = Some n.
Proof.
  intros Hn. unfold with_name. destruct n; try done; apply dict_get_set_eq.
Qed.

Lemma with_name_get_ne (k k' : string) (n : value) (d : dict) :
  k ≠ k' -> dict_get (with_name k n d) k' = dict_get d k'.
Proof.
  intros Hk. unfold with_name. destruct (is_none n); [done|].
  by apply dict_get_set_ne.
Qed.

Lemma with_name_None (k : string) (d : dict) : with_name k VNone d = d.
Proof. reflexivity. Qed.

Lemma get_workflow_data_eq (st : State S) :
  let d :=
    with_name "name" (name (self st))
      match workflow_data (self st) with
      | Some (x :: d0) => x :: d0
      | _ => []
      end in
  get_workflow_data st =
  (inr d,
   mkState
     (set_workflow_data
        match workflow_data (self st) with
        | Some (_ :: _) => Some d
        | o => o
        end (self st))
     (log st) (uuids st)).
Proof.
  destruct st as [w lg n]. unfold get_workflow_data. run.
  by destruct w as [? ? [[|x d0]|] ? ? ? ? ? ? ? ? ? ? ? ?].
Qed.

Lemma get_session_data_eq (st : State S) :
  let d :=
    with_name "session_name" (session_name (self st))
      match session_data (self st) with
      | Some (x :: d0) => x :: d0
      | _ => []
      end in
  get_session_data st =
  (inr d,
   mkState
     (set_session_data
        match session_data (self st) with
        | Some (_ :: _) => Some d
        | o => o
        end (self st))
     (log st) (uuids st)).
Proof.
  destruct st as [w lg n]. unfold get_session_data. run.
  by destruct w as [? ? ? ? ? ? ? [[|x d0]|] ? ? ? ? ? ? ?].
Qed.

(** X6.  [get_workflow_data] and [get_session_data] hand back the metadata
    of the instance with the name (session name) of the instance under
    ["name"] (["session_name"]) when that is not [None], and every other key
    as the instance has it.  A non-empty dictionary of the instance is the
    one that is updated and returned; an empty or missing one is left as it
    is and a new dictionary is returned. *)
Theorem metadata_carries_the_name (st : State S) :
  exists d st',
    get_workflow_data st = (inr d, st') /\
    (name (self st) ≠ VNone -> dict_get d "name" = Some (name (self st))) /\
    (forall k, k ≠ "name" ->
       dict_get d k = workflow_data (self st) ≫= fun d0 => dict_get d0 k) /\
    (name (self st) = VNone -> d = default [] (workflow_data (self st))) /\
    workflow_data (self st') =
      match workflow_data (self st) with
      | Some (_ :: _) => Some d
      | o => o
      end /\
    log st' = log st /\
    exists e st'',
      get_session_data st' = (inr e, st'') /\
      (session_name (self st) ≠ VNone ->
       dict_get e "session_name" = Some (session_name (self st))) /\
      (forall k, k ≠ "session_name" ->
         dict_get e k = session_data (self st) ≫= fun d0 => dict_get d0 k) /\
      (session_name (self st) = VNone -> e = default [] (session_data (self st))) /\
      session_data (self st'') =
        match session_data (self st) with
        | Some (_ :: _) => Some e
        | o => o
        end /\
      workflow_data (self st'') = workflow_data (self st') /\
      log st'' = log st.
Proof.
  pose proof (get_workflow_data_eq st) as Hd. simpl in Hd.
  eexists _, _. split; [exact Hd|]. split_and!.
  - apply with_name_get.
  - intros k Hk. rewrite with_name_get_ne by done.
    by destruct (workflow_data (self st)) as [[|x d0]|].
  - intros ->. rewrite with_name_None.
    by destruct (workflow_data (self st)) as [[|x d0]|].
  - done.
  - done.
  - remember (mkState _ _ _) as st1 eqn:E1.
    pose proof (get_session_data_eq st1) as He. simpl in He.
    eexists _, _. split; [exact He|]. rewrite E1. simpl. split_and!.
    + apply with_name_get.
    + intros k Hk. rewrite with_name_get_ne by done.
      by destruct (session_data (self st)) as [[|x d0]|].
    + intros ->. rewrite with_name_None.
      by destruct (session_data (self st)) as [[|x d0]|].
    + done.
    + done.
    + done.
Qed.

(** ** Identity and maps across a load *)

(** X8.  Loading a session never replaces an identifier the instance
    already has: each of [session_id], [workflow_id] and [user_id] is kept
    when set and taken from the session when not.  [read_from_storage]
    leaves [session_id] as it is in every case, and writes nothing. *)
Theorem identifiers_are_adopted_not_replaced
    (session : WorkflowSession.t) (st : State S) :
  (exists session' st',
      from_workflow_session session st = (inr session', st') /\
      (forall x, session_id (self st) = Some x -> session_id (self st') = Some x) /\
      (forall x, workflow_id (self st) = Some x -> workflow_id (self st') = Some x) /\
      (forall x, user_id (self st) = Some x -> user_id (self st') = Some x) /\
      (session_id (self st) = None ->
       session_id (self st') = WorkflowSession.session_id session) /\
      (workflow_id (self st) = None ->
       workflow_id (self st') = WorkflowSession.workflow_id session) /\
      (user_id (self st) = None ->
       user_id (self st') = WorkflowSession.user_id session)) /\
  (exists st1,
      read_from_storage st = (inr (_workflow_session (self st1)), st1) /\
      session_id (self st1) = session_id (self st) /\
      log st1 = log st ++ read_log (self st) /\
      List.filter is_upsert (read_log (self st)) = []).
Proof.
  split.
  - load_facts session st. exists session', st'. split; [done|].
    rewrite Hsid, Hwid, Huid.
    split_and!; try (by intros x ->); by intros ->.
  - destruct (read_from_storage_spec st)
      as (st1 & Hr & _ & Hl & _ & _ & _ & Hsid & _).
    exists st1. split_and!; try done. apply filter_read_log.
Qed.

(** X9.  For each of the four maps, a load never takes a dictionary away
    from the instance: when the session has none the dictionary of the
    instance is untouched, and when the instance has none it takes the
    persisted one as it is. *)
Theorem maps_survive_a_missing_side
    (session : WorkflowSession.t) (st : State S) :
  exists session' st',
    from_workflow_session session st = (inr session', st') /\
    (WorkflowSession.workflow_data session = None ->
     workflow_data (self st') = workflow_data (self st)) /\
    (WorkflowSession.user_data session = None ->
     user_data (self st') = user_data (self st)) /\
    (WorkflowSession.session_data session = None ->
     session_data (self st') = session_data (self st)) /\
    (WorkflowSession.session_state session = None ->
     session_state (self st') = session_state (self st)) /\
    (forall p, WorkflowSession.workflow_data session = Some p ->
       workflow_data (self st) = None ->
       workflow_data (self st') = Some p /\
       WorkflowSession.workflow_data session' = Some p) /\
    (forall p, WorkflowSession.user_data session = Some p ->
       user_data (self st) = None ->
       user_data (self st') = Some p /\
       WorkflowSession.user_data session' = Some p) /\
    (forall p, WorkflowSession.session_data session = Some p ->
       session_data (self st) = None ->
       session_data (self st') = Some p /\
       WorkflowSession.session_data session' = Some p) /\
    (forall p, WorkflowSession.session_state session = Some p ->
       session_state (self st) = None ->
       session_state (self st') = Some p /\
       WorkflowSession.session_state session' = Some p) /\
    (is_Some (workflow_data (self st)) -> is_Some (workflow_data (self st'))) /\
    (is_Some (user_data (self st)) -> is_Some (user_data (self st'))) /\
    (is_Some (session_data (self st)) -> is_Some (session_data (self st'))) /\
    (is_Some (session_state (self st)) -> is_Some (session_state (self st'))).
Proof.
  load_facts session st. exists session', st'. split; [done|].
  rewrite Hwd, Hud, Hsd, Hss, Hswd, Hsud, Hssd, Hsss.
  split_and!; try (by intros ->); try (by intros p -> ->).
  - by destruct (WorkflowSession.workflow_data session).
  - by destruct (WorkflowSession.user_data session).
  - by destruct (WorkflowSession.session_data session).
  - by destruct (WorkflowSession.session_state session).
Qed.

(** X11.  The history of the instance is touched only when the persisted
    memory has a ["runs"] entry: without a persisted memory, or without that
    key, it stays as it is and nothing is logged.  An empty persisted list
    empties it.  A value that cannot be iterated leaves it as it is, with
    the warning. *)
Theorem history_without_persisted_runs
    (session : WorkflowSession.t) (st : State S) :
  exists session' st',
    from_workflow_session session st = (inr session', st') /\
    (WorkflowSession.memory session = None ->
     memory (self st') = memory (self st) /\ log st' = log st) /\
    (forall m, WorkflowSession.memory session = Some m ->
       dict_get m "runs" = None ->
       memory (self st') = memory (self st) /\ log st' = log st) /\
    (forall m, WorkflowSession.memory session = Some m ->
       dict_get m "runs" = Some (VList []) ->
       WorkflowMemory.runs (memory (self st')) = [] /\ log st' = log st) /\
    (forall m v, WorkflowSession.memory session = Some m ->
       dict_get m "runs" = Some v -> iterate v = None ->
       memory (self st') = memory (self st) /\
       log st' = log st ++ [LoggerWarning "Failed to load WorkflowMemory"]).
Proof.
  load_facts session st. exists session', st'. split; [done|].
  rewrite Hmem, Hlog. unfold persisted_runs, load_runs.
  split_and!.
  - intros ->. by rewrite app_nil_r.
  - intros m -> ->. by rewrite app_nil_r.
  - intros m -> ->. simpl. by rewrite app_nil_r.
  - by intros m v -> -> ->.
Qed.

(** ** What is written *)

Lemma get_workflow_session_eq (st : State S) :
  let w := self st in
  let d :=
    with_name "name" (name w)
      match workflow_data w with
      | Some (x :: d0) => x :: d0
      | _ => []
      end in
  let e :=
    with_name "session_name" (session_name w)
      match session_data w with
      | Some (x :: d0) => x :: d0
      | _ => []
      end in
  get_workflow_session st =
  (inr (WorkflowSession.mk (session_id w) (workflow_id w) (user_id w)
          (Some (to_dict (memory w))) (Some d) (user_data w) (Some e)
          (session_state w)),
   mkState
     (set_session_data
        match session_data w with
        | Some (_ :: _) => Some e
        | o => o
        end
        (set_workflow_data
           match workflow_data w with
           | Some (_ :: _) => Some d
           | o => o
           end w))
     (log st) (uuids st)).
Proof.
  intros w d e. unfold get_workflow_session.
  unfold bind at 1. unfold get_self at 1. cbv beta.
  rewrite (bind_inr _ _ _ _ _ (get_workflow_data_eq st)). cbv beta.
  match goal with
  | |- context [bind get_session_data _ ?x] =>
      rewrite (bind_inr _ _ _ _ _ (get_session_data_eq x))
  end.
  reflexivity.
Qed.

(** X7.  With a storage configured, [write_to_storage] upserts one record:
    the identifiers, the user data and the session state of the instance as
    they are, the memory as [to_dict] renders it, and the two metadata
    dictionaries with the name and the session name of the instance in
    them.  The record the storage answers with, whatever it is, becomes the
    cached session; the history and the run fields are not touched. *)
Theorem write_to_storage_upserts_the_snapshot (st : State S) (db : S) :
  storage (self st) = Some db ->
  exists session st',
    write_to_storage st = (inr (WorkflowStorage.upsert db session).2, st') /\
    log st' = log st ++ [StorageUpsert session] /\
    WorkflowSession.session_id session = session_id (self st) /\
    WorkflowSession.workflow_id session = workflow_id (self st) /\
    WorkflowSession.user_id session = user_id (self st) /\
    WorkflowSession.memory session = Some (to_dict (memory (self st))) /\
    WorkflowSession.user_data session = user_data (self st) /\
    WorkflowSession.session_state session = session_state (self st) /\
    (exists d,
        WorkflowSession.workflow_data session = Some d /\
        (name (self st) ≠ VNone -> dict_get d "name" = Some (name (self st))) /\
        (forall k, k ≠ "name" ->
           dict_get d k = workflow_data (self st) ≫= fun d0 => dict_get d0 k)) /\
    (exists e,
        WorkflowSession.session_data session = Some e /\
        (session_name (self st) ≠ VNone ->
         dict_get e "session_name" = Some (session_name (self st))) /\
        (forall k, k ≠ "session_name" ->
           dict_get e k = session_data (self st) ≫= fun d0 => dict_get d0 k)) /\
    _workflow_session (self st') = (WorkflowStorage.upsert db session).2 /\
    storage (self st') = Some (WorkflowStorage.upsert db session).1 /\
    memory (self st') = memory (self st) /\
    run_id (self st') = run_id (self st) /\
    run_response (self st') = run_response (self st).
Proof.
  intros Hdb. pose proof (get_workflow_session_eq st) as Hs. simpl in Hs.
  match type of Hs with
  | _ = (inr ?s, ?st1) =>
      exists s,
        (mkState
           (set__workflow_session (WorkflowStorage.upsert db s).2
              (set_storage (Some (WorkflowStorage.upsert db s).1) (self st1)))
           (log st1 ++ [StorageUpsert s]) (uuids st1))
  end.
  split.
  - unfold write_to_storage. unfold bind at 1. unfold get_self at 1.
    rewrite Hdb. unfold bind at 1. unfold bind at 1. rewrite Hs.
    destruct (WorkflowStorage.upsert db _) as [db' echoed] eqn:Hup. by run.
  - simpl. split_and!; try done.
    + eexists. split; [reflexivity|]. split; [apply with_name_get|].
      intros k Hk. rewrite with_name_get_ne by done.
      by destruct (workflow_data (self st)) as [[|x d0]|].
    + eexists. split; [reflexivity|]. split; [apply with_name_get|].
      intros k Hk. rewrite with_name_get_ne by done.
      by destruct (session_data (self st)) as [[|x d0]|].
Qed.

(** ** [load_session] *)



Lemma cached_session_answers (st : State S) ws sid :
  _workflow_session (self st) = Some ws ->
  session_id (self st) = Some sid ->
  WorkflowSession.session_id ws = Some sid ->
  load_session false st = (inr (Some sid), st).
Proof.
  intros Hc Hsid Hws. unfold load_session. unfold bind at 1.
  unfold get_self at 1. rewrite Hc, Hsid, Hws.
  by rewrite bool_decide_true.
Qed.

(** X1.  A session that is cached under the session id of the instance is
    what an unforced [load_session] answers with: the storage is not
    called and nothing changes. *)
Theorem load_session_uses_the_cache (st : State S) ws sid :
  _workflow_session (self st) = Some ws ->
  session_id (self st) = Some sid ->
  WorkflowSession.session_id ws = Some sid ->
  load_session false st = (inr (Some sid), st).
Proof. apply cached_session_answers. Qed.




(** ** [delete_session] *)

(** X10.  [delete_session] hands the id to the storage and does nothing
    else: the cached session stays.  So an unforced [load_session] on the
    session just deleted still answers from the cache, without a read. *)
Theorem delete_session_keeps_the_cache (sid : string) (st : State S) db :
  storage (self st) = Some db ->
  exists st',
    delete_session sid st = (inr tt, st') /\
    log st' = log st ++ [StorageDelete sid] /\
    storage (self st') = Some (WorkflowStorage.delete_session db sid) /\
    _workflow_session (self st') = _workflow_session (self st) /\
    memory (self st') = memory (self st) /\
    session_id (self st') = session_id (self st) /\
    forall ws,
      _workflow_session (self st) = Some ws ->
      session_id (self st) = Some sid ->
      WorkflowSession.session_id ws = Some sid ->
      load_session false st' = (inr (Some sid), st').
Proof.
  intros Hdb. unfold delete_session. unfold bind at 1. unfold get_self at 1.
  rewrite Hdb. run. eexists. split; [reflexivity|]. simpl.
  split_and!; try done.
  intros ws Hc Hsid Hws.
  by apply (cached_session_answers _ ws sid).
Qed.

(** ** The other results of a run *)



(** X5.  A run whose function returns neither an iterator nor a response
    is dropped: [run_workflow] returns [None] after one warning, nothing is
    added to the history and nothing is written.  The run fields of the
    instance have been set for the run all the same. *)
Theorem malformed_result_is_dropped
    (args : list value) (kwargs : dict) (st : State S) (v : value) :
  _subclass_run (self (run_workflow_begin args kwargs st).2) args kwargs =
    ResultOther v ->
  exists st',
    run_workflow args kwargs st = (inr ReturnNone, st') /\
    log st' =
      log st ++ read_log (self st) ++
      [SubclassRun args kwargs;
       LoggerWarning "Workflow.run() should only return RunResponse objects"] /\
    List.filter is_add_run (read_log (self st)) = [] /\
    List.filter is_upsert (read_log (self st)) = [] /\
    memory (self st') = memory (self (run_workflow_begin args kwargs st).2) /\
    run_id (self st') = Some (uuid4 (uuids st)) /\
    run_input (self st') =
      Some (VDict [("args", VTuple args); ("kwargs", VDict kwargs)]) /\
    RunResponse.content (run_response (self st')) = VNone /\
    uuids st' = Datatypes.S (uuids st).
Proof.
  intros Hres.
  destruct (run_workflow_begin_spec args kwargs st)
    as (sb & Hb & Hu & Hl & Hrid & Hrin & Hrr & Hsid & Hst).
  rewrite Hb in Hres |- *. simpl in Hres |- *.
  rewrite (run_workflow_unfold _ _ _ _ Hb), Hres.
  destruct (filter_read_log (self st)) as (Hr1 & Hr2 & _).
  eexists. split; [reflexivity|]. simpl.
  rewrite Hl, Hrr, <- !app_assoc. by split_and!.
Qed.

(** ** Resuming the generator *)

Lemma next_None_closed g (st : State S) g1 st1 :
  result_generator_next g st = (inr (None, g1), st1) -> closed g1 = true.
Proof.
  unfold result_generator_next. destruct (closed g) eqn:Hc.
  { by intros [= <- _]. }
  destruct (source g) as [|it rest].
  - unfold bind, ret.
    destruct (add_run st) as [[e|[]] s1]; [done|].
    destruct (write_to_storage s1) as [[e|r'] s2]; [done|].
    by intros [= <- _].
  - destruct it as [r|v]; unfold bind, get_self, lift, emit, ret, modify_self;
      simpl; repeat case_match; by intros [=].
Qed.

Lemma pull_closed m g (st : State S) :
  closed g = true -> pull m g st = (inr ([], g), st).
Proof.
  intros Hc. destruct m as [|m]; [done|].
  cbn [pull]. unfold bind at 1. unfold result_generator_next. by rewrite Hc.
Qed.

(** X12.  The generator resumes where it was left: pulling [n] times and
    then [m] times gives the fragments, the state and the log of pulling
    [n + m] times, and the same exception if there is one. *)
Theorem pull_in_batches (n m : nat) (g : result_generator) (st : State S) :
  pull (n + m) g st =
  (let* (its1, g1) := pull n g in
   let* (its2, g2) := pull m g1 in
   ret (its1 ++ its2, g2)) st.
Proof.
  revert g st. induction n as [|n IH]; intros g st.
  - simpl. unfold bind, ret.
    by destruct (pull m g st) as [[e|[its2 g2]] st'].
  - cbn [Nat.add pull].
    destruct (result_generator_next g st) as [[e|[[it|] g1]] st1] eqn:Hn.
    + unfold bind. by rewrite Hn.
    + unfold bind. rewrite Hn. cbv beta iota. rewrite IH. unfold bind, ret.
      destruct (pull n g1 st1) as [[e|[its1 g2]] st2]; [done|].
      by destruct (pull m g2 st2) as [[e|[its2 g3]] st3].
    + unfold bind, ret. rewrite Hn.
      by rewrite (pull_closed m g1 st1 (next_None_closed _ _ _ _ Hn)).
Qed.

(** X13.  The generator adds to whatever the outer response of the instance
    holds when it is pulled.  If that is neither a string nor a list (a
    later run has replaced the response, and its content is [None]), the
    [next()] that meets a response fragment with a string content raises a
    [TypeError]: nothing is yielded, logged or finalised. *)
Theorem generator_needs_a_string_accumulator
    (r : RunResponse.t) (rest : list item) (s : string) (st : State S) :
  RunResponse.content r = VStr s ->
  match RunResponse.content (run_response (self st)) with
  | VStr _ | VList _ => False
  | _ => True
  end ->
  result_generator_next (mkGenerator (ItemResponse r :: rest) false) st =
    (inl (TypeError "unsupported operand type(s) for +="), st) /\
  forall n,
    pull (Datatypes.S n) (mkGenerator (ItemResponse r :: rest) false) st =
      (inl (TypeError "unsupported operand type(s) for +="), st).
Proof.
  intros Hr Hacc.
  assert (result_generator_next (mkGenerator (ItemResponse r :: rest) false) st =
          (inl (TypeError "unsupported operand type(s) for +="), st)) as Hn.
  { unfold result_generator_next. simpl.
    unfold bind, get_self, lift. simpl. rewrite Hr.
    by destruct (RunResponse.content (run_response (self st))). }
  split; [done|]. intros n. cbn [pull]. unfold bind at 1. by rewrite Hn.
Qed.

End Methods.

(** * The properties on the concrete setting *)

(** Three levels deep: the local scalar wins, the persisted sibling survives,
    the local sibling is added. *)
Lemma merge_precedence_witness :
  unique_keys (VDict local_example) = true /\
  let merged := merge_dictionaries persisted_example local_example in
  value_at (VDict merged) ["a"; "b"; "c"] = Some (VInt 2) /\
  value_at (VDict merged) ["a"; "b"; "keep"] = Some (VStr "p") /\
  value_at (VDict merged) ["a"; "b"; "new"] = Some (VStr "l") /\
  value_at (VDict merged) ["a"; "only_p"] = Some (VInt 5) /\
  dict_get merged "scalar" = Some (VInt 20) /\
  dict_get merged "only_l" = Some (VBool true).
Proof.
  split; [reflexivity|].
  destruct (merge_precedence (S := store) example_validate
              persisted_example local_example eq_refl)
    as (Hboth & Honly_p & Honly_l & Hrec & Hdeep_l & Hdeep_p & _).
  split_and!.
  - by apply Hdeep_l.
  - by apply (Hdeep_p ["a"; "b"] "keep" []
                [("c", VInt 2); ("new", VStr "l")]).
  - by apply Hdeep_l.
  - by apply (Hdeep_p ["a"] "only_p" []
                [("b", VDict [("c", VInt 2); ("new", VStr "l")])]).
  - by apply (Hboth "scalar" (VInt 10)).
  - by apply Honly_l.
Defined.

Lemma history_replaced_wholesale_witness :
  let session := session_with_runs [good_entry 1; good_entry 2] in
  let rs :=
    [WorkflowRun.mk (Some (VDict [("args", VTuple [VInt 1]); ("kwargs", VDict [])])) None;
     WorkflowRun.mk (Some (VDict [("args", VTuple [VInt 2]); ("kwargs", VDict [])])) None] in
  WorkflowSession.memory session =
    Some [("runs", VList [good_entry 1; good_entry 2])] /\
  dict_get [("runs", VList [good_entry 1; good_entry 2])] "runs" =
    Some (VList [good_entry 1; good_entry 2]) /\
  mapM (WorkflowRun_kwargs example_validate) [good_entry 1; good_entry 2] = Some rs /\
  exists session' st',
    from_workflow_session example_validate session fresh_state = (inr session', st') /\
    WorkflowMemory.runs (memory (self st')) = rs.
Proof.
  intros session rs. split_and!; [reflexivity..|].
  destruct (history_replaced_wholesale example_validate session fresh_state
              [("runs", VList [good_entry 1; good_entry 2])]
              [good_entry 1; good_entry 2] rs eq_refl eq_refl eq_refl)
    as (session' & st' & Hrun & Hruns & _).
  by exists session', st'.
Defined.

Lemma history_load_is_all_or_nothing_witness :
  let entries := [good_entry 1; VStr "corrupt"; good_entry 3] in
  let session := session_with_runs entries in
  WorkflowSession.memory session = Some [("runs", VList entries)] /\
  dict_get [("runs", VList entries)] "runs" = Some (VList entries) /\
  (iterate (VList entries) = None \/
   exists es, iterate (VList entries) = Some es /\
     Exists (fun e => WorkflowRun_kwargs example_validate e = None) es) /\
  exists session' st',
    from_workflow_session example_validate session fresh_state = (inr session', st') /\
    memory (self st') = memory (self fresh_state) /\
    log st' = [LoggerWarning "Failed to load WorkflowMemory"].
Proof.
  intros entries session.
  assert (iterate (VList entries) = None \/
          exists es, iterate (VList entries) = Some es /\
            Exists (fun e => WorkflowRun_kwargs example_validate e = None) es)
    as Hbad.
  { right. exists entries. split; [reflexivity|].
    apply Exists_cons_tl, Exists_cons_hd. reflexivity. }
  split_and!; [reflexivity..|exact Hbad|].
  exact (history_load_is_all_or_nothing example_validate session fresh_state
           [("runs", VList entries)] (VList entries) eq_refl eq_refl Hbad).
Defined.

(** C6 as the spec's sections 6 and 7 word it would have the two good
    entries loaded; the code loads none. *)
Lemma malformed_entry_discards_whole_history :
  let entries := [good_entry 1; VStr "corrupt"; good_entry 3] in
  let st' :=
    (from_workflow_session example_validate (session_with_runs entries)
       fresh_state).2 in
  omap (WorkflowRun_kwargs example_validate) entries =
    [WorkflowRun.mk (Some (VDict [("args", VTuple [VInt 1]); ("kwargs", VDict [])])) None;
     WorkflowRun.mk (Some (VDict [("args", VTuple [VInt 3]); ("kwargs", VDict [])])) None] /\
  WorkflowMemory.runs (memory (self st')) = [] /\
  WorkflowMemory.runs (memory (self st')) ≠
    omap (WorkflowRun_kwargs example_validate) entries.
Proof. by vm_compute. Qed.

(** The spec's own example, with a non-response and a non-string content
    thrown in. *)
Lemma streaming_content_is_concatenation_witness :
  example_stream
    (self (run_workflow_begin example_uuid4 example_validate [] [] fresh_state).2)
    [] [] = ResultIterator hello_world /\
  length hello_world < 6 /\
  exists g st1 its g' st2,
    run_workflow example_uuid4 example_to_dict example_validate example_stream
      [] [] fresh_state = (inr (ReturnGenerator g), st1) /\
    pull example_to_dict 6 g st1 = (inr (its, g'), st2) /\
    length its = 5 /\
    RunResponse.content (run_response (self st2)) = VStr "Hello World" /\
    length (WorkflowMemory.runs (memory (self st2))) = 1.
Proof.
  split; [reflexivity|]. split; [simpl; lia|].
  destruct (streaming_content_is_concatenation example_uuid4 example_to_dict
              example_validate example_stream [] [] fresh_state hello_world 6
              eq_refl ltac:(simpl; lia))
    as (g & st1 & its & g' & st2 & post & Hrun & Hpull & _ & Hits & Hc & Hacc
        & Hruns & _).
  exists g, st1, its, g', st2. split_and!; try done.
  - rewrite Hits. by rewrite length_fmap.
  - by rewrite Hc, Hacc.
  - rewrite Hruns, length_app. vm_compute in Hrun.
    by injection Hrun as <- <-.
Defined.





(** The persisted name is adopted although the local metadata carries its
    own, which is the one the merged metadata ends up with. *)
Example adoption_precedes_merge :
  let r := from_workflow_session example_validate named_session unnamed_state in
  name (self r.2) = VStr "persisted" /\
  workflow_data (self r.2) =
    Some [("name", VStr "local"); ("version", VInt 3)].
Proof. by vm_compute. Qed.

(** A record without [session_data]: the rename fails before the upsert. *)
Example rename_session_without_session_data :
  let st :=
    mkState
      (set_storage
         (Some ({["s-2" :=
                   WorkflowSession.mk (Some "s-2") None None None None None None None]}
                : store))
         fresh_workflow) [] 0 in
  exists st',
    rename_session "s-2" "x" st =
      (inl (TypeError "'NoneType' object does not support item assignment"), st') /\
    log st' = [StorageRead "s-2"].
Proof. eexists. by vm_compute. Qed.

(** * The further properties on the concrete setting *)

Lemma load_session_uses_the_cache_witness :
  _workflow_session (self cached_state) = Some (session_with_runs []) /\
  session_id (self cached_state) = Some "s-1" /\
  WorkflowSession.session_id (session_with_runs []) = Some "s-1" /\
  load_session example_to_dict example_validate false cached_state =
    (inr (Some "s-1"), cached_state).
Proof.
  split_and!; [reflexivity..|].
  exact (load_session_uses_the_cache example_to_dict example_validate
           cached_state (session_with_runs []) "s-1" eq_refl eq_refl eq_refl).
Defined.




Lemma malformed_result_is_dropped_witness :
  example_malformed
    (self (run_workflow_begin example_uuid4 example_validate [] [] fresh_state).2)
    [] [] = ResultOther (VInt 3) /\
  exists st',
    run_workflow example_uuid4 example_to_dict example_validate example_malformed
      [] [] fresh_state = (inr ReturnNone, st') /\
    log st' =
      [StorageRead "s-1"; SubclassRun [] [];
       LoggerWarning "Workflow.run() should only return RunResponse objects"] /\
    memory (self st') = WorkflowMemory.mk [] /\
    run_id (self st') = Some "run-0".
Proof.
  split; [reflexivity|].
  destruct (malformed_result_is_dropped example_uuid4 example_to_dict
              example_validate example_malformed [] [] fresh_state _ eq_refl)
    as (st' & Hrun & Hlog & _ & _ & Hmem & Hrid & _).
  exists st'. by split_and!.
Defined.

(** The record written for a workflow with a name, a session name and
    metadata of its own. *)
Lemma write_to_storage_upserts_the_snapshot_witness :
  storage (self titled_state) = Some (∅ : store) /\
  exists session st',
    write_to_storage example_to_dict titled_state = (inr (Some session), st') /\
    log st' = [StorageUpsert session] /\
    (WorkflowSession.workflow_data session ≫= fun d => dict_get d "name") =
      Some (VStr "Greeter") /\
    (WorkflowSession.workflow_data session ≫= fun d => dict_get d "version") =
      Some (VInt 2) /\
    (WorkflowSession.session_data session ≫= fun d => dict_get d "session_name") =
      Some (VStr "first talk") /\
    _workflow_session (self st') = Some session.
Proof.
  split; [reflexivity|].
  destruct (write_to_storage_upserts_the_snapshot example_to_dict titled_state
              (∅ : store) eq_refl)
    as (session & st' & Hrun & Hlog & Hsid & _ & _ & _ & _ & _
        & (d & Hd & Hname & Hkeys) & (e & He & Hsname & _) & Hc & _).
  assert ((WorkflowStorage.upsert (∅ : store) session).2 = Some session) as Hup.
  { unfold WorkflowStorage.upsert, dict_storage. by rewrite Hsid. }
  rewrite Hup in Hrun, Hc. exists session, st'.
  rewrite Hd, He. simpl. split_and!; [exact Hrun|exact Hlog| | | |exact Hc].
  - by apply Hname.
  - by rewrite Hkeys.
  - by apply Hsname.
Defined.

Lemma delete_session_keeps_the_cache_witness :
  storage (self cached_state) = Some ({["s-1" := session_with_runs []]} : store) /\
  exists st',
    delete_session "s-1" cached_state = (inr tt, st') /\
    log st' = [StorageDelete "s-1"] /\
    (storage (self st') ≫= fun db : store => db !! "s-1") = None /\
    load_session example_to_dict example_validate false st' =
      (inr (Some "s-1"), st').
Proof.
  split; [reflexivity|].
  destruct (delete_session_keeps_the_cache example_to_dict example_validate
              "s-1" cached_state _ eq_refl)
    as (st' & Hrun & Hlog & Hsto & _ & _ & _ & Hload).
  exists st'. split_and!; [exact Hrun|exact Hlog| |].
  - rewrite Hsto. by vm_compute.
  - by apply (Hload (session_with_runs [])).
Defined.

(** A streaming run is started, a second run is dropped before the first is
    consumed, and then the generator of the first is pulled. *)
Lemma generator_needs_a_string_accumulator_witness :
  let run := run_workflow example_uuid4 example_to_dict example_validate example_mixed in
  let st2 := (run [VInt 1] [] (run [] [] fresh_state).2).2 in
  (run [] [] fresh_state).1 = inr (ReturnGenerator (mkGenerator hello_world false)) /\
  RunResponse.content (RunResponse.mk (VStr "Hello") None None None) = VStr "Hello" /\
  match RunResponse.content (run_response (self st2)) with
  | VStr _ | VList _ => False
  | _ => True
  end /\
  pull example_to_dict 1 (mkGenerator hello_world false) st2 =
    (inl (TypeError "unsupported operand type(s) for +="), st2).
Proof.
  intros run st2. split; [reflexivity|]. split; [reflexivity|].
  assert (match RunResponse.content (run_response (self st2)) with
          | VStr _ | VList _ => False
          | _ => True
          end) as Hacc by (by vm_compute).
  split; [exact Hacc|].
  by destruct (generator_needs_a_string_accumulator example_to_dict
                 (RunResponse.mk (VStr "Hello") None None None)
                 (tail hello_world) "Hello" st2 eq_refl Hacc) as [_ Hpull].
Defined.

(** Pulling the five fragments two, then four times. *)
Example pull_in_batches_example :
  let run := run_workflow example_uuid4 example_to_dict example_validate example_stream in
  let st1 := (run [] [] fresh_state).2 in
  let g := mkGenerator hello_world false in
  exists a g1 sta b g2 stb,
    pull example_to_dict 2 g st1 = (inr (a, g1), sta) /\
    pull example_to_dict 4 g1 sta = (inr (b, g2), stb) /\
    pull example_to_dict 6 g st1 = (inr (a ++ b, g2), stb) /\
    length a = 2 /\ length b = 3 /\ closed g2 = true.
Proof. eexists _, _, _, _, _, _. by vm_compute. Qed.
